(** * SwissBasketGamesCollector: a shallow embedding of the collector script

    The development follows [SwissBasketGamesCollector.py]:
    - pandas values and frames (cells, columns, selection, concatenation,
      sorting) as far as the script uses them;
    - the column reconciliation and the value normalisation of
      [update_sheet];
    - the remote spreadsheet (sub-views as grids of cells) with the Sheets
      calls of [update_sheet] in a state-and-exception monad;
    - the three-tier [get_spreadsheet_id] over the settings file;
    - the driver loop of [main].

    Logging is not modelled; every remote call is recorded in a trace. *)

From stdpp Require Import gmap strings list fin_maps pretty sorting.

Open Scope string_scope.
Open Scope list_scope.
Open Scope nat_scope.

(** ** Cells of a pandas frame *)

(** A [pd.Timestamp] (a [datetime64] value), by calendar fields. *)
Record Timestamp := mkTimestamp {
  year : nat; month : nat; day : nat;
  hour : nat; minute : nat; second : nat
}.

(** A [datetime.time] object. *)
Record time_of_day := mkTime { t_hour : nat; t_minute : nat; t_second : nat }.

(** The values a frame cell holds.  [NaN] is the missing marker ([np.nan],
    [NaT]); numbers are integers here; a [timedelta64] value is a whole
    number of seconds. *)
Inductive cell :=
| NaN
| Num (z : Z)
| Str (s : string)
| Ts (t : Timestamp)
| Time (t : time_of_day)
| Td (secs : Z).

#[global] Instance Timestamp_eq_dec : EqDecision Timestamp.
Proof. solve_decision. Defined.
#[global] Instance time_of_day_eq_dec : EqDecision time_of_day.
Proof. solve_decision. Defined.
#[global] Instance cell_eq_dec : EqDecision cell.
Proof. solve_decision. Defined.

Definition is_nan (x : cell) : bool := match x with NaN => true | _ => false end.
Definition is_ts (x : cell) : bool := match x with Ts _ => true | _ => false end.
Definition is_td (x : cell) : bool := match x with Td _ => true | _ => false end.
(** [isinstance(x, datetime.time)] *)
Definition is_time (x : cell) : bool := match x with Time _ => true | _ => false end.

(** ** Formatting *)

(** Zero-padded decimal of width two and four ([%m], [%d], [%H], [%M], [%Y]). *)
Definition pad2 (n : nat) : string :=
  if decide (n < 10) then "0" +:+ pretty n else pretty n.

Definition pad4 (n : nat) : string :=
  if decide (n < 10) then "000" +:+ pretty n
  else if decide (n < 100) then "00" +:+ pretty n
  else if decide (n < 1000) then "0" +:+ pretty n
  else pretty n.

(** [strftime('%Y-%m-%d')] *)
Definition strftime_Ymd (t : Timestamp) : string :=
  pad4 (year t) +:+ "-" +:+ pad2 (month t) +:+ "-" +:+ pad2 (day t).

(** [strftime('%H:%M')] *)
Definition strftime_HM (t : time_of_day) : string :=
  pad2 (t_hour t) +:+ ":" +:+ pad2 (t_minute t).

(** [str] of a pandas timedelta: [D days HH:MM:SS], the clock part carrying
    a plus sign when the day count is negative. *)
Definition timedelta_str (secs : Z) : string :=
  let days := (secs `div` 86400)%Z in
  let rest := Z.to_nat (secs `mod` 86400)%Z in
  pretty days +:+ " days " +:+ (if decide (days < 0)%Z then "+" else "")
  +:+ pad2 (rest / 3600) +:+ ":" +:+ pad2 (rest `mod` 3600 / 60)
  +:+ ":" +:+ pad2 (rest `mod` 60).

(** ** ISO calendar week ([Series.dt.isocalendar().week]) *)

Definition is_leap (y : nat) : bool :=
  (bool_decide (y `mod` 4 = 0) && negb (bool_decide (y `mod` 100 = 0)))
  || bool_decide (y `mod` 400 = 0).

Definition days_in_month (y m : nat) : nat :=
  match m with
  | 2 => if is_leap y then 29 else 28
  | 4 | 6 | 9 | 11 => 30
  | _ => 31
  end.

(** Days of year [y] before the first of month [m]. *)
Definition days_before_month (y m : nat) : nat :=
  sum_list (map (days_in_month y) (seq 1 (m - 1))).

(** Days before January 1st of year [y] (proleptic Gregorian). *)
Definition days_before_year (y : nat) : nat :=
  let p := y - 1 in 365 * p + p / 4 - p / 100 + p / 400.

Definition day_of_year (t : Timestamp) : nat :=
  days_before_month (year t) (month t) + day t.

(** Monday is 1, Sunday is 7; day 1 of year 1 is a Monday. *)
Definition iso_weekday (t : Timestamp) : nat :=
  (days_before_year (year t) + day_of_year t + 6) `mod` 7 + 1.

Definition weeks_in_year (y : nat) : nat :=
  let p := fun y => (y + y / 4 - y / 100 + y / 400) `mod` 7 in
  if bool_decide (p y = 4) || bool_decide (p (y - 1) = 3) then 53 else 52.

Definition iso_week (t : Timestamp) : nat :=
  let w := (day_of_year t + 10 - iso_weekday t) / 7 in
  if decide (w < 1) then weeks_in_year (year t - 1)
  else if decide (weeks_in_year (year t) < w) then 1
  else w.

(** ** pandas frames *)

(** A frame: the length of its index and its columns, each a label with
    its cells.  The frames of the script carry distinct, non-empty labels
    ([read_excel] names a blank header cell [Unnamed: n] and renames a
    repeated one), and every column has one cell per index entry. *)
Record DataFrame := mkFrame {
  index_len : nat;
  series : list (string * list cell)
}.

(** [df.columns] *)
Definition columns (df : DataFrame) : list string := map fst (series df).

(** Every column has one cell per index entry. *)
Definition rectangular (df : DataFrame) : Prop :=
  Forall (λ s, length s.2 = index_len df) (series df).

(** The dtypes [select_dtypes] tells apart.  pandas infers the dtype of a
    column from its cells: a column of timestamps (missing ones allowed) is
    [datetime64], a column of timedeltas is [timedelta64]; an empty or
    all-missing column is neither. *)
Inductive dtype := datetime64 | timedelta64 | other_dtype.

Definition dtype_of (data : list cell) : dtype :=
  if forallb (λ x, is_ts x || is_nan x) data && existsb is_ts data then datetime64
  else if forallb (λ x, is_td x || is_nan x) data && existsb is_td data then timedelta64
  else other_dtype.

#[global] Instance dtype_eq_dec : EqDecision dtype.
Proof. solve_decision. Defined.

(** [df[label] = data]: overwrite the column in place, or append it. *)
Fixpoint set_series (label : string) (data : list cell)
    (cols : list (string * list cell)) : list (string * list cell) :=
  match cols with
  | [] => [(label, data)]
  | (l, d) :: rest =>
      if decide (l = label) then (l, data) :: rest
      else (l, d) :: set_series label data rest
  end.

Definition set_column (label : string) (data : list cell) (df : DataFrame) : DataFrame :=
  mkFrame (index_len df) (set_series label data (series df)).

(** [df[label] = scalar] *)
Definition set_scalar (label : string) (x : cell) (df : DataFrame) : DataFrame :=
  set_column label (replicate (index_len df) x) df.

(** [df[label]]: the cells of the column, if there is one. *)
Definition get_column (label : string) (df : DataFrame) : option (list cell) :=
  snd <$> find (λ s, bool_decide (s.1 = label)) (series df).

(** [df[labels]]: for every requested label, in order, the columns that
    carry it; [None] stands for [KeyError]. *)
Definition select (labels : list string) (df : DataFrame) : option DataFrame :=
  if decide (Forall (λ l, l ∈ columns df) labels)
  then Some (mkFrame (index_len df)
               (labels ≫= λ l, filter (λ s, s.1 = l) (series df)))
  else None.

(** Apply [f] to every cell of the columns whose data satisfy [p]. *)
Definition map_columns_where (p : list cell → bool) (f : cell → cell)
    (df : DataFrame) : DataFrame :=
  mkFrame (index_len df)
    (map (λ s, if p s.2 then (s.1, map f s.2) else s) (series df)).

(** [df.values.tolist()]: the rows. *)
Definition values_tolist (df : DataFrame) : list (list cell) :=
  map (λ i, map (λ s, nth i s.2 NaN) (series df)) (seq 0 (index_len df)).

(** ** Schema reconciliation (lines 223-233 of [update_sheet]) *)

(** [[col for col in existing_columns if col in df.columns]] *)
Definition common_columns (existing incoming : list string) : list string :=
  filter (λ col, col ∈ incoming) existing.

(** [[col for col in df.columns if col not in common_columns]] *)
Definition new_columns (existing incoming : list string) : list string :=
  filter (λ col, col ∉ common_columns existing incoming) incoming.

(** The column order the step asks for: the selection list when the frame
    is re-indexed, the frame's own columns when it is left alone. *)
Definition reconcile (existing incoming : list string) : list string :=
  match existing with
  | [] => incoming
  | _ =>
      match common_columns existing incoming with
      | [] => incoming
      | common => common ++ new_columns existing incoming
      end
  end.

(** The same step on the frame; [None] is the [KeyError] of the selection. *)
Definition reorder (existing : list string) (df : DataFrame) : option DataFrame :=
  match existing with
  | [] => Some df
  | _ =>
      match common_columns existing (columns df) with
      | [] => Some df
      | common => select (common ++ new_columns existing (columns df)) df
      end
  end.

(** ** Value normalisation (lines 195-209 of [update_sheet]) *)

(** [df.replace({np.nan: ''})] *)
Definition replace_nan (df : DataFrame) : DataFrame :=
  map_columns_where (λ _, true) (λ x, if is_nan x then Str "" else x) df.

(** [df[col] = df[col].dt.strftime('%Y-%m-%d')] for the [datetime64]
    columns; a missing timestamp formats to the missing marker. *)
Definition format_timestamp (x : cell) : cell :=
  match x with Ts t => Str (strftime_Ymd t) | _ => x end.

Definition stringify_datetime (df : DataFrame) : DataFrame :=
  map_columns_where (λ data, bool_decide (dtype_of data = datetime64))
    format_timestamp df.

(** [df[col] = df[col].astype(str)] for the [timedelta64] columns. *)
Definition format_timedelta (x : cell) : cell :=
  match x with
  | Td secs => Str (timedelta_str secs)
  | NaN => Str "NaT"
  | _ => x
  end.

Definition stringify_timedelta (df : DataFrame) : DataFrame :=
  map_columns_where (λ data, bool_decide (dtype_of data = timedelta64))
    format_timedelta df.

(** [x.strftime('%H:%M') if isinstance(x, datetime.time) else x], applied to
    the columns that hold at least one [datetime.time]. *)
Definition format_time (x : cell) : cell :=
  match x with Time t => Str (strftime_HM t) | _ => x end.

Definition stringify_time (df : DataFrame) : DataFrame :=
  map_columns_where (existsb is_time) format_time df.

Definition normalize (df : DataFrame) : DataFrame :=
  stringify_time (stringify_timedelta (stringify_datetime (replace_nan df))).

(** ** The remote spreadsheet *)

(** What a sheet cell stores after a [RAW] write. *)
Inductive prim := PStr (s : string) | PNum (z : Z).

#[global] Instance prim_eq_dec : EqDecision prim.
Proof. solve_decision. Defined.

(** Exceptions: [googleapiclient.errors.HttpError] with its status, and
    every other Python exception by class name. *)
Inductive exn := HttpError (status : nat) | PyError (name : string).

(** A sub-view: cells by zero-based (row, column); an absent key is an
    empty cell. *)
Abbreviation grid := (gmap (nat * nat) prim).

(** The formatted value [values().get] reports for a cell. *)
Definition render (c : option prim) : string :=
  match c with
  | None => ""
  | Some (PStr s) => s
  | Some (PNum z) => pretty z
  end.

(** [values().get] drops the empty cells that end a row. *)
Fixpoint trim_trailing (row : list string) : list string :=
  match row with
  | [] => []
  | s :: rest =>
      match trim_trailing rest with
      | [] => if decide (s = "") then [] else [s]
      | rest' => s :: rest'
      end
  end.

(** The ranges the script names end at column [Z] and at row 50000. *)
Definition row_ceiling : nat := 50 * 1000.
Definition column_ceiling : nat := 26.

(** The rows of range [A1:Z1], as the ['values'] entry of the response
    (no entry, here the empty list, when every cell is empty). *)
Definition read_A1_Z1 (g : grid) : list (list string) :=
  match trim_trailing (map (λ c, render (g !! (0, c))) (seq 0 column_ceiling)) with
  | [] => []
  | row => [row]
  end.

(** Range [A1:Z50000]. *)
Definition in_A1_Z50000 (p : nat * nat) : Prop :=
  p.1 < row_ceiling ∧ p.2 < column_ceiling.

#[global] Instance in_A1_Z50000_dec p : Decision (in_A1_Z50000 p).
Proof. unfold in_A1_Z50000. apply _. Defined.

Definition clear_A1_Z50000 (g : grid) : grid :=
  filter (λ kv, ¬ in_A1_Z50000 kv.1) g.

(** A [RAW] write of one value: the empty string empties the cell. *)
Definition write_cell (p : nat * nat) (v : prim) (g : grid) : grid :=
  if decide (v = PStr "") then delete p g else <[p := v]> g.

Fixpoint write_row (r c : nat) (row : list prim) (g : grid) : grid :=
  match row with
  | [] => g
  | v :: rest => write_row r (S c) rest (write_cell (r, c) v g)
  end.

(** Writing [rows] with the top-left corner at row [r], column [A]. *)
Fixpoint write_rows (r : nat) (rows : list (list prim)) (g : grid) : grid :=
  match rows with
  | [] => g
  | row :: rest => write_rows (S r) rest (write_row r 0 row g)
  end.

(** JSON encoding of the request body: timestamps, times and timedeltas
    are not serialisable ([TypeError]); the missing marker encodes to a
    token the service rejects. *)
Definition to_json (x : cell) : exn + prim :=
  match x with
  | Num z => inr (PNum z)
  | Str s => inr (PStr s)
  | NaN => inl (HttpError 400)
  | _ => inl (PyError "TypeError")
  end.

Fixpoint to_json_row (row : list cell) : exn + list prim :=
  match row with
  | [] => inr []
  | x :: rest =>
      match to_json x with
      | inl e => inl e
      | inr v =>
          match to_json_row rest with
          | inl e => inl e
          | inr vs => inr (v :: vs)
          end
      end
  end.

Fixpoint to_json_rows (rows : list (list cell)) : exn + list (list prim) :=
  match rows with
  | [] => inr []
  | row :: rest =>
      match to_json_row row with
      | inl e => inl e
      | inr vs =>
          match to_json_rows rest with
          | inl e => inl e
          | inr vss => inr (vs :: vss)
          end
      end
  end.

(** ** Settings *)

Record team_data := mkTeam { team_id : option string }.

Record google_sheets := mkGoogleSheets {
  spreadsheetId : option string;
  spreadsheetName : option string;
  writePrivilege : option (list string)
}.

(** The document of [settings.json]: the teams in file order and the
    [googleSheets] entry. *)
Record settings_data := mkSettings {
  teams : list (string * team_data);
  googleSheets : option google_sheets
}.

(** ** The world: process memory, remote state, trace *)

Inductive event :=
| EvSpreadsheetGet (spreadsheet_id : string)
| EvFilesList (name : string)
| EvSpreadsheetCreate (title : string)
| EvSettingsSave (data : settings_data)
| EvPermissionCreate (spreadsheet_id email : string)
| EvDownload (team : string)
| EvSheetGet (sheet : string)
| EvAddSheet (sheet : string)
| EvValuesGet (sheet : string)
| EvValuesClear (sheet : string)
| EvValuesUpdate (sheet : string) (values : list (list prim)).

Record world := mkWorld {
  settings_file : option settings_data;  (* settings.json, [None] if unreadable *)
  settings : settings_data;              (* [Settings._data] *)
  all_games : list DataFrame;            (* the accumulator of [main] *)
  sheets : gmap string grid;             (* the sub-views of the spreadsheet *)
  faults : list (option exn);            (* what the next Sheets calls run into *)
  trace : list event                     (* the remote operations so far *)
}.

(** The collaborators the script calls outside the spreadsheet's cells. *)
Record services := mkServices {
  credentials : exn + unit;                      (* [get_google_services] *)
  spreadsheets_get : string → exn + unit;        (* existence probe of an id *)
  files_list : string → exn + list string;       (* ids of the files of a name *)
  spreadsheets_create : string → exn + string;   (* id of the new spreadsheet *)
  json_dump : settings_data → exn + unit;        (* writing [settings.json] *)
  permissions_create : string → string → exn + unit;
  requests_get : string → exn + string;          (* the export of a team id *)
  read_excel : string → exn + DataFrame;
  argsort : list cell → list nat                 (* numpy's quicksort order *)
}.

(** ** The monad of the script: state and exceptions *)

Definition M (A : Type) : Type := world → world * (exn + A).

#[global] Instance M_ret : MRet M := λ A x w, (w, inr x).
#[global] Instance M_bind : MBind M := λ A B f m w,
  match m w with
  | (w', inr x) => f x w'
  | (w', inl e) => (w', inl e)
  end.

(** [raise e] *)
Definition throw {A} (e : exn) : M A := λ w, (w, inl e).

(** [try: m except Exception as e: handler e] *)
Definition try_except {A} (m : M A) (handler : exn → M A) : M A := λ w,
  match m w with
  | (w', inl e) => handler e w'
  | r => r
  end.

Definition get_world : M world := λ w, (w, inr w).
Definition modify (f : world → world) : M unit := λ w, (f w, inr ()).

Definition set_settings_file (d : option settings_data) (w : world) : world :=
  mkWorld d (settings w) (all_games w) (sheets w) (faults w) (trace w).
Definition set_settings (d : settings_data) (w : world) : world :=
  mkWorld (settings_file w) d (all_games w) (sheets w) (faults w) (trace w).
Definition set_all_games (l : list DataFrame) (w : world) : world :=
  mkWorld (settings_file w) (settings w) l (sheets w) (faults w) (trace w).
Definition set_sheets (s : gmap string grid) (w : world) : world :=
  mkWorld (settings_file w) (settings w) (all_games w) s (faults w) (trace w).
Definition set_faults (l : list (option exn)) (w : world) : world :=
  mkWorld (settings_file w) (settings w) (all_games w) (sheets w) l (trace w).
Definition record_event (ev : event) (w : world) : world :=
  mkWorld (settings_file w) (settings w) (all_games w) (sheets w) (faults w)
    (trace w ++ [ev]).

(** The outcome of a call, lifted. *)
Definition lift {A} (r : exn + A) : M A := λ w, (w, r).

(** A call to a collaborator of [services]: recorded, outcome as given. *)
Definition call {A} (ev : event) (r : exn + A) : M A :=
  modify (record_event ev);; lift r.

(** A Sheets call on the spreadsheet's cells: recorded; it fails as the
    head of the fault plan says, if it says so. *)
Definition sheets_call (ev : event) : M unit :=
  modify (record_event ev);;
  w ← get_world;
  modify (set_faults (tail (faults w)));;
  match faults w with
  | Some e :: _ => throw e
  | _ => mret ()
  end.

(** [spreadsheets().get(ranges="<sheet>!A1")]: an unknown sheet name is a
    range that does not parse, status 400. *)
Definition sheet_get (sheet : string) : M unit :=
  sheets_call (EvSheetGet sheet);;
  w ← get_world;
  if decide (is_Some (sheets w !! sheet)) then mret () else throw (HttpError 400).

(** [batchUpdate] with one [addSheet] request. *)
Definition add_sheet (sheet : string) : M unit :=
  sheets_call (EvAddSheet sheet);;
  w ← get_world;
  if decide (is_Some (sheets w !! sheet)) then throw (HttpError 400)
  else modify (set_sheets (<[sheet := ∅]> (sheets w))).

(** [values().get(range="<sheet>!A1:Z1")], the ['values'] of the response. *)
Definition values_get_A1_Z1 (sheet : string) : M (list (list string)) :=
  sheets_call (EvValuesGet sheet);;
  w ← get_world;
  match sheets w !! sheet with
  | Some g => mret (read_A1_Z1 g)
  | None => throw (HttpError 400)
  end.

(** [values().clear(range="<sheet>!A1:Z50000")] *)
Definition values_clear_A1_Z50000 (sheet : string) : M unit :=
  sheets_call (EvValuesClear sheet);;
  w ← get_world;
  match sheets w !! sheet with
  | Some g => modify (set_sheets (<[sheet := clear_A1_Z50000 g]> (sheets w)))
  | None => throw (HttpError 400)
  end.

(** [values().update(range="<sheet>!A1", valueInputOption='RAW', body)]:
    the body is encoded when the request is built, before it is sent. *)
Definition values_update_A1 (sheet : string) (values : list (list cell)) : M unit :=
  body ← lift (to_json_rows values);
  sheets_call (EvValuesUpdate sheet body);;
  w ← get_world;
  match sheets w !! sheet with
  | Some g => modify (set_sheets (<[sheet := write_rows 0 body g]> (sheets w)))
  | None => throw (HttpError 400)
  end.

(** ** [update_sheet] *)

(** [[df.columns.tolist()] + df.values.tolist()] *)
Definition values_of (df : DataFrame) : list (list cell) :=
  map Str (columns df) :: values_tolist df.

(** [existing_columns] from the response of the header read. *)
Definition existing_columns (sheet_header : list (list string)) : list string :=
  match sheet_header with
  | row :: _ => row
  | [] => []
  end.

(** The first block of [update_sheet]: check that the sheet exists, add it
    if the check fails with status 400 or 404. *)
Definition ensure_sheet (sheet_name : string) : M unit :=
  try_except (sheet_get sheet_name) (λ e,
    match e with
    | HttpError status =>
        if decide (status = 400 ∨ status = 404) then add_sheet sheet_name
        else throw e
    | _ => throw e
    end).

(** The world holds the sub-views of the spreadsheet [spreadsheet_id]
    denotes.  The outer [except Exception: log; raise] is the identity. *)
Definition update_sheet (spreadsheet_id sheet_name : string) (df : DataFrame) : M unit :=
  ensure_sheet sheet_name;;
  let df := normalize df in
  sheet_header ← values_get_A1_Z1 sheet_name;
  df ← lift (from_option inr (inl (PyError "KeyError"))
               (reorder (existing_columns sheet_header) df));
  let values := values_of df in
  values_clear_A1_Z50000 sheet_name;;
  values_update_A1 sheet_name values.

(** ** [Settings.save_settings] and [get_spreadsheet_id] *)

(** [json.dump(self._data, f)]: the file holds the document once the write
    went through. *)
Definition save_settings (env : services) : M unit :=
  w ← get_world;
  call (EvSettingsSave (settings w)) (json_dump env (settings w));;
  modify (set_settings_file (Some (settings w))).

(** The two assignments into [settings._data['googleSheets']], after the
    entry has been created if it was missing or empty. *)
Definition store_spreadsheet (spreadsheet_id spreadsheet_name : string) : M unit :=
  w ← get_world;
  let gs := default (mkGoogleSheets None None None) (googleSheets (settings w)) in
  modify (set_settings
    (mkSettings (teams (settings w))
       (Some (mkGoogleSheets (Some spreadsheet_id) (Some spreadsheet_name)
                (writePrivilege gs))))).

(** Steps 2 and 3 of [get_spreadsheet_id]: the first spreadsheet of the
    given name, or a new one; either way the id goes into the settings and
    the settings into the file. *)
Definition search_or_create (env : services) (spreadsheet_name : string) : M string :=
  (* Step 2: a spreadsheet of the given name *)
  files ← call (EvFilesList spreadsheet_name) (files_list env spreadsheet_name);
  match files with
  | spreadsheet_id :: _ =>
      store_spreadsheet spreadsheet_id spreadsheet_name;;
      save_settings env;;
      mret spreadsheet_id
  | [] =>
      (* Step 3: a new spreadsheet *)
      spreadsheet_id ← call (EvSpreadsheetCreate spreadsheet_name)
                         (spreadsheets_create env spreadsheet_name);
      store_spreadsheet spreadsheet_id spreadsheet_name;;
      save_settings env;;
      mret spreadsheet_id
  end.

(** [settings.get('googleSheets', {}).get('spreadsheetId', '')] and the
    same for the name. *)
Definition configured_id (w : world) : string :=
  default "" (googleSheets (settings w) ≫= spreadsheetId).

Definition configured_name (w : world) : string :=
  default "BasketPlan Games" (googleSheets (settings w) ≫= spreadsheetName).

(** The outer [except Exception: log; raise] is the identity. *)
Definition get_spreadsheet_id (env : services) : M string :=
  w ← get_world;
  let spreadsheet_id := configured_id w in
  let spreadsheet_name := configured_name w in
  (* Step 1: the id of the settings, if it is there and answers *)
  found ← (if decide (spreadsheet_id ≠ "") then
             try_except
               (call (EvSpreadsheetGet spreadsheet_id)
                  (spreadsheets_get env spreadsheet_id);;
                mret (Some spreadsheet_id))
               (λ e, match e with
                     | HttpError _ => mret None
                     | _ => throw e
                     end)
           else mret None);
  match found with
  | Some spreadsheet_id => mret spreadsheet_id
  | None => search_or_create env spreadsheet_name
  end.

(** [share_spreadsheet]: a failure is logged and dropped. *)
Definition share_spreadsheet (env : services) (spreadsheet_id email : string) : M unit :=
  try_except
    (call (EvPermissionCreate spreadsheet_id email)
       (permissions_create env spreadsheet_id email))
    (λ _, mret ()).

(** ** Concatenation and sorting of frames *)

(** The labels of [l] not in [seen], each at its first occurrence. *)
Fixpoint first_occurrences (seen l : list string) : list string :=
  match l with
  | [] => []
  | x :: rest =>
      if decide (x ∈ seen) then first_occurrences seen rest
      else x :: first_occurrences (x :: seen) rest
  end.

(** The cells of column [label], the missing marker on every row when the
    frame has no such column. *)
Definition column_or_nan (label : string) (df : DataFrame) : list cell :=
  default (replicate (index_len df) NaN) (get_column label df).

(** [pd.concat(dfs, ignore_index=True)]: the union of the columns in order
    of first appearance, the rows of the frames one after the other. *)
Definition concat_frames (dfs : list DataFrame) : DataFrame :=
  mkFrame (sum_list (index_len <$> dfs))
    (map (λ l, (l, dfs ≫= column_or_nan l))
       (first_occurrences [] (dfs ≫= columns))).






Definition same_type (x y : cell) : bool :=
  match x, y with
  | NaN, NaN | Num _, Num _ | Str _, Str _ | Ts _, Ts _
  | Time _, Time _ | Td _, Td _ => true
  | _, _ => false
  end.

(** Keys the sort can compare pairwise. *)
Definition comparable (keys : list cell) : bool :=
  match keys with
  | [] => true
  | k :: _ => forallb (same_type k) keys
  end.

(** pandas' [nargsort] with [na_position='last']: the positions of the
    present keys in the order [argsort] gives for them, then the positions
    of the missing keys. *)
Definition nargsort (env : services) (keys : list cell) : list nat :=
  let idx := seq 0 (length keys) in
  let non_nan_idx := filter (λ i, is_nan (nth i keys NaN) = false) idx in
  let nan_idx := filter (λ i, is_nan (nth i keys NaN) = true) idx in
  map (λ j, nth j non_nan_idx 0)
    (argsort env (filter (λ k, is_nan k = false) keys)) ++ nan_idx.

(** The rows at the given positions, in that order. *)
Definition take_rows (order : list nat) (df : DataFrame) : DataFrame :=
  mkFrame (length order)
    (map (λ s, (s.1, map (λ i, nth i s.2 NaN) order)) (series df)).

(** [df.sort_values(by=label)], default [kind='quicksort']. *)
Definition sort_values (env : services) (label : string) (df : DataFrame)
    : exn + DataFrame :=
  match get_column label df with
  | None => inl (PyError "KeyError")
  | Some keys =>
      if comparable (filter (λ k, is_nan k = false) keys)
      then inr (take_rows (nargsort env keys) df)
      else inl (PyError "TypeError")
  end.

(** ** [main] *)

(** [Settings()]: the document of the file becomes [_data]. *)
Definition load_settings : M unit :=
  w ← get_world;
  match settings_file w with
  | Some d => modify (set_settings d)
  | None => throw (PyError "OSError")
  end.

Definition download_team_games (env : services) (team : string) : M string :=
  call (EvDownload team) (requests_get env team).

(** [df['Datum'].dt.isocalendar().week]: the accessor exists on
    [datetime64] columns only. *)
Definition isocalendar_week (data : list cell) : exn + list cell :=
  if decide (dtype_of data = datetime64)
  then inr (map (λ x, match x with Ts t => Num (Z.of_nat (iso_week t)) | _ => NaN end) data)
  else inl (PyError "AttributeError").

Fixpoint for_each {A} (body : A → M unit) (l : list A) : M unit :=
  match l with
  | [] => mret ()
  | x :: rest => body x;; for_each body rest
  end.

(** [team_name[:24]] *)
Definition sheet_name_of (team_name : string) : string := String.substring 0 24 team_name.

(** [df['Team'] = team_name], and [df['Week']] from the ISO week of
    [Datum] when the frame has that column. *)
Definition add_team_and_week (team_name : string) (df : DataFrame)
    : exn + DataFrame :=
  let df := set_scalar "Team" (Str team_name) df in
  if decide ("Datum" ∈ columns df) then
    match isocalendar_week (column_or_nan "Datum" df) with
    | inl e => inl e
    | inr week => inr (set_column "Week" week df)
    end
  else inr df.

(** The body of the loop over the teams. *)
Definition process_team (env : services) (spreadsheet_id : string)
    (team : string * team_data) : M unit :=
  let team_name := team.1 in
  try_except
    (let team_id := default "" (team_id team.2) in
     if decide (team_id = "") then mret ()
     else
       excel_content ← download_team_games env team_id;
       df ← lift (read_excel env excel_content);
       df ← lift (add_team_and_week team_name df);
       w ← get_world;
       modify (set_all_games (all_games w ++ [df]));;
       update_sheet spreadsheet_id (sheet_name_of team_name) df)
    (λ _, mret ()).

(** The combined frame of the ["All"] sheet. *)
Definition combine (env : services) (games : list DataFrame) : exn + DataFrame :=
  let combined_df := concat_frames games in
  if decide ("Datum" ∈ columns combined_df)
  then sort_values env "Datum" combined_df
  else inr combined_df.

Definition sync_all (env : services) (spreadsheet_id : string) : M unit :=
  w ← get_world;
  match all_games w with
  | [] => mret ()
  | games =>
      combined_df ← lift (combine env games);
      update_sheet spreadsheet_id "All" combined_df
  end.

Definition main_body (env : services) : M unit :=
  load_settings;;
  w ← get_world;
  let teams := teams (settings w) in
  match teams with
  | [] => mret ()
  | _ =>
      lift (credentials env);;
      spreadsheet_id ← get_spreadsheet_id env;
      w ← get_world;
      let users := default [] (googleSheets (settings w) ≫= writePrivilege) in
      for_each (share_spreadsheet env spreadsheet_id) users;;
      modify (set_all_games []);;
      for_each (process_team env spreadsheet_id) teams;;
      sync_all env spreadsheet_id
  end.

(** [main]: whatever escapes the body is reported and dropped. *)
Definition main (env : services) (w : world) : world := (main_body env w).1.

(** ** Vocabulary of the statements *)

(** The fault the next Sheets call runs into, and the world after a Sheets
    call has been issued. *)
Definition next_fault (w : world) : option exn :=
  match faults w with Some e :: _ => Some e | _ => None end.

Definition step (ev : event) (w : world) : world :=
  set_faults (tail (faults w)) (record_event ev w).

(** What a written value leaves in the cell, and the value a request body
    carries for a position. *)
Definition stored (v : prim) : option prim :=
  if decide (v = PStr "") then None else Some v.

Definition body_at (rows : list (list prim)) (p : nat * nat) : option prim :=
  rows !! p.1 ≫= λ row, row !! p.2.

(** The request body [update_sheet] writes for frame [df] over grid [g]. *)
Definition synced (df : DataFrame) (g : grid) : option (list (list prim)) :=
  reorder (existing_columns (read_A1_Z1 g)) (normalize df) ≫= λ df',
  match to_json_rows (values_of df') with
  | inr body => Some body
  | inl _ => None
  end.

(** No fault ahead of the next [n] Sheets calls. *)
Definition quiet (n : nat) (w : world) : Prop :=
  Forall (λ f, f = None) (take n (faults w)).

(** ** Sample inputs *)

(** Nothing configured, no sub-view, no fault planned. *)
Definition empty_world : world :=
  mkWorld None (mkSettings [] None) [] ∅ [] [].

Definition sample_frame : DataFrame :=
  mkFrame 2
    [("Datum", [Ts (mkTimestamp 2024 3 5 0 0 0); Ts (mkTimestamp 2024 3 9 0 0 0)]);
     ("Zeit", [Time (mkTime 14 30 0); Time (mkTime 9 5 0)]);
     ("Resultat", [Str "71:64"; NaN])].

(** Twenty-seven columns without rows, and the first of them alone. *)
Definition wide_frame : DataFrame :=
  mkFrame 0 (map (λ i, ("c" +:+ pretty i, [])) (seq 1 27)).

Definition narrow_frame : DataFrame := mkFrame 0 [("c1", [])].

(** Two grids with the same cells in range [A1:Z1]. *)
Definition header_agree (g1 g2 : grid) : Prop :=
  ∀ c, c < column_ceiling → g1 !! (0, c) = g2 !! (0, c).

(** Two worlds a run on [sheet_name] cannot tell apart: same fault plan,
    same trace, and the sub-view there in both or in neither, with the same
    cells in [A1:Z1]. *)
Definition alike (sheet_name : string) (w1 w2 : world) : Prop :=
  faults w1 = faults w2 ∧ trace w1 = trace w2 ∧
  match sheets w1 !! sheet_name, sheets w2 !! sheet_name with
  | Some g1, Some g2 => header_agree g1 g2
  | None, None => True
  | _, _ => False
  end.

(** A computation that gives the same outcome in worlds that are alike,
    and leaves them alike. *)
Definition blind {A} (sheet_name : string) (m : M A) : Prop :=
  ∀ w1 w2, alike sheet_name w1 w2 →
    alike sheet_name (m w1).1 (m w2).1 ∧ (m w1).2 = (m w2).2.

(** A sub-view with headers in columns [Z] and [AA], and the same without
    the cell in [AA]. *)
Definition grid_Z_AA : grid :=
  {[ (0, 0) := PStr "Datum"; (0, 25) := PStr "Halle"; (0, 26) := PStr "Team" ]}.
Definition grid_Z : grid :=
  {[ (0, 0) := PStr "Datum"; (0, 25) := PStr "Halle" ]}.







(** Settings that cache the id [abc]. *)
Definition cached_world : world :=
  mkWorld None
    (mkSettings [("Men1", mkTeam (Some "4711"))]
       (Some (mkGoogleSheets (Some "abc") None None)))
    [] ∅ [] [].

(** Collaborators that all answer, and the same with a probe that times
    out below HTTP. *)
Definition env_ok : services :=
  mkServices (inr ()) (λ _, inr ()) (λ _, inr []) (λ _, inr "new")
    (λ _, inr ()) (λ _ _, inr ()) (λ _, inr "bytes")
    (λ _, inr sample_frame) (λ keys, seq 0 (length keys)).

Definition env_timeout : services :=
  mkServices (inr ()) (λ _, inl (PyError "TimeoutError")) (λ _, inr [])
    (λ _, inr "new") (λ _, inr ()) (λ _ _, inr ()) (λ _, inr "bytes")
    (λ _, inr sample_frame) (λ keys, seq 0 (length keys)).


(** [team_id] as [main] reads it, [team_data.get('id', '')], is truthy. *)
Definition has_source_id (team : string * team_data) : Prop :=
  default "" (team_id team.2) ≠ "".

#[global] Instance has_source_id_dec team : Decision (has_source_id team).
Proof. unfold has_source_id. apply _. Defined.








(** A Sheets call on sub-view [sheet]. *)
Definition on_sheet (sheet : string) (ev : event) : Prop :=
  match ev with
  | EvSheetGet s | EvAddSheet s | EvValuesGet s | EvValuesClear s
  | EvValuesUpdate s _ => s = sheet
  | _ => False
  end.

(** From [w] to [w'] nothing happened but Sheets calls on [sheet]: the
    trace grew by such calls and the accumulator of [main] is the same. *)
Definition sheet_events (sheet : string) (w w' : world) : Prop :=
  (∃ evs, trace w' = trace w ++ evs ∧ Forall (on_sheet sheet) evs) ∧
  all_games w' = all_games w.

(** [R] relates every world to the world the computation leaves. *)
Definition always {A} (R : world → world → Prop) (m : M A) : Prop :=
  ∀ w, R w (m w).1.




(** The settings once [store_spreadsheet] has put an id and a name into
    them: the teams and the write privileges stay. *)
Definition with_spreadsheet (spreadsheet_id spreadsheet_name : string)
    (d : settings_data) : settings_data :=
  mkSettings (teams d)
    (Some (mkGoogleSheets (Some spreadsheet_id) (Some spreadsheet_name)
             (writePrivilege (default (mkGoogleSheets None None None)
                                (googleSheets d))))).

(** The calls of step 1: the probe, when an id is configured. *)
Definition probe_events (w : world) : list event :=
  if decide (configured_id w ≠ "") then [EvSpreadsheetGet (configured_id w)]
  else [].

(** Step 1 does not settle the id: none is configured, or the probe of the
    configured one fails with an [HttpError]. *)
Definition probe_misses (env : services) (w : world) : Prop :=
  configured_id w = "" ∨
  ∃ status, spreadsheets_get env (configured_id w) = inl (HttpError status).

(** Settings without a cached id and a file with the same content. *)
Definition fresh_world : world :=
  mkWorld
    (Some (mkSettings [("Men1", mkTeam (Some "4711"))]
             (Some (mkGoogleSheets None (Some "Games") (Some ["a@b.ch"])))))
    (mkSettings [("Men1", mkTeam (Some "4711"))]
       (Some (mkGoogleSheets None (Some "Games") (Some ["a@b.ch"]))))
    [] ∅ [] [].

(** The search finds two spreadsheets of the name. *)
Definition env_found : services :=
  mkServices (inr ()) (λ _, inr ()) (λ _, inr ["xyz"; "uvw"]) (λ _, inr "new")
    (λ _, inr ()) (λ _ _, inr ()) (λ _, inr "bytes")
    (λ _, inr sample_frame) (λ keys, seq 0 (length keys)).


(** A team's frame as the loop builds it: the export fetched, read and
    tagged. *)
Definition fetch_frame (env : services) (team : string * team_data)
    : exn + DataFrame :=
  match requests_get env (default "" (team_id team.2)) with
  | inl e => inl e
  | inr excel_content =>
      match read_excel env excel_content with
      | inl e => inl e
      | inr df => add_team_and_week team.1 df
      end
  end.

(** The week cell of a [Datum] cell. *)
Definition week_of (x : cell) : cell :=
  match x with Ts t => Num (Z.of_nat (iso_week t)) | _ => NaN end.

(** The export of one team cannot be downloaded. *)
Definition env_download_fails : services :=
  mkServices (inr ()) (λ _, inr ()) (λ _, inr []) (λ _, inr "new")
    (λ _, inr ()) (λ _ _, inr ())
    (λ team, if decide (team = "4711") then inl (PyError "HTTPError")
             else inr "bytes")
    (λ _, inr sample_frame) (λ keys, seq 0 (length keys)).

(** From [w] to [w'] nothing changed but the sub-view [sheet], the fault
    plan and the trace. *)
Definition only_sheet (sheet : string) (w w' : world) : Prop :=
  (∀ other, other ≠ sheet → sheets w' !! other = sheets w !! other) ∧
  settings w' = settings w ∧
  settings_file w' = settings_file w ∧
  all_games w' = all_games w.

(** The calls of a run of [update_sheet] that goes through, with request
    body [body]: the sheet is added when it was not there. *)
Definition sync_calls (sheet : string) (there : bool) (body : list (list prim))
    : list event :=
  EvSheetGet sheet :: (if there then [] else [EvAddSheet sheet])
  ++ [EvValuesGet sheet; EvValuesClear sheet; EvValuesUpdate sheet body].

(** The probe is forbidden. *)
Definition forbidden_world : world :=
  mkWorld None (mkSettings [] None) [] {[ "Men1" := grid_Z_AA ]}
    [Some (HttpError 403)] [].


(** A new column before the one [narrow_frame] has. *)
Definition two_column_frame : DataFrame := mkFrame 0 [("c0", []); ("c1", [])].



(** A sheet header that names [Resultat] twice. *)
Definition repeated_header : list string := ["Resultat"; "Datum"; "Resultat"].

(** Two teams with an id, one without. *)
Definition three_teams : list (string * team_data) :=
  [("Men1", mkTeam (Some "4711")); ("U16", mkTeam None);
   ("Women1", mkTeam (Some "4711"))].

(** * Properties *)

(** ** Lists *)

Section list_facts.
Context {A : Type} (P : A → Prop) `{!∀ x, Decision (P x)}.

Lemma filter_all (l : list A) : (∀ x, x ∈ l → P x) → filter P l = l.
Proof.
  induction l as [|a l IH]; intros Hl; [done|].
  rewrite filter_cons_True by (apply Hl; left).
  f_equal. apply IH. intros x Hx. apply Hl. by right.
Qed.

Lemma filter_none (l : list A) : (∀ x, x ∈ l → ¬ P x) → filter P l = [].
Proof.
  induction l as [|a l IH]; intros Hl; [done|].
  rewrite filter_cons_False by (apply Hl; left).
  apply IH. intros x Hx. apply Hl. by right.
Qed.
End list_facts.

(** ** The reconciler on labels *)

Lemma reconcile_unfold (E I : list string) :
  reconcile E I =
    match E with
    | [] => I
    | _ => common_columns E I ++ new_columns E I
    end.
Proof.
  unfold reconcile. destruct E as [|e E]; [done|].
  destruct (common_columns (e :: E) I) as [|c cs] eqn:Hc; [|done].
  unfold new_columns. rewrite Hc. simpl.
  symmetry. apply filter_all. intros x _. apply not_elem_of_nil.
Qed.

Lemma reconcile_elem (E I : list string) (x : string) :
  x ∈ reconcile E I ↔ x ∈ I.
Proof.
  rewrite reconcile_unfold. destruct E as [|e E]; [done|].
  unfold new_columns, common_columns.
  rewrite elem_of_app, list_elem_of_filter, list_elem_of_filter.
  split; [intros [[? ?]|[? ?]]; done|].
  intros Hx. destruct (decide (x ∈ e :: E)) as [Hin|Hout].
  - left. done.
  - right. split; [|done]. rewrite list_elem_of_filter. tauto.
Qed.

Lemma reconcile_fixed (O I : list string) :
  (∀ x, x ∈ O ↔ x ∈ I) → reconcile O I = O.
Proof.
  intros H. rewrite reconcile_unfold. destruct O as [|o O].
  - destruct I as [|i I]; [done|]. exfalso.
    apply (not_elem_of_nil i), H. left.
  - assert (Hc : common_columns (o :: O) I = o :: O).
    { apply filter_all. intros x Hx. by apply H. }
    unfold new_columns. rewrite Hc.
    rewrite (filter_none _ I); [by rewrite app_nil_r|].
    intros x Hx Hn. apply Hn, H, Hx.
Qed.

(** ** Grids *)

Lemma write_cell_lookup (p : nat * nat) (v : prim) (g : grid) (q : nat * nat) :
  write_cell p v g !! q = if decide (p = q) then stored v else g !! q.
Proof.
  unfold write_cell, stored. destruct (decide (v = PStr "")).
  - rewrite lookup_delete. by destruct (decide (p = q)).
  - rewrite lookup_insert. by destruct (decide (p = q)).
Qed.

Lemma write_row_lookup (r c : nat) (row : list prim) (g : grid) (q : nat * nat) :
  write_row r c row g !! q =
    if decide (q.1 = r ∧ c ≤ q.2)
    then match row !! (q.2 - c) with Some v => stored v | None => g !! q end
    else g !! q.
Proof.
  revert c g. induction row as [|v row IH]; intros c g; simpl.
  - by destruct (decide _).
  - rewrite IH. destruct q as [qr qc]; simpl.
    destruct (decide (qr = r ∧ S c ≤ qc)) as [[-> Hc]|Hn].
    + rewrite decide_True by lia.
      replace (qc - c) with (S (qc - S c)) by lia. simpl.
      destruct (row !! (qc - S c)); [done|].
      rewrite write_cell_lookup. rewrite decide_False; [done|].
      intros [=]. lia.
    + rewrite write_cell_lookup.
      destruct (decide (qr = r ∧ c ≤ qc)) as [[-> Hc]|Hn'].
      * assert (qc = c) as -> by lia. rewrite Nat.sub_diag. simpl.
        by rewrite decide_True.
      * rewrite decide_False; [done|]. intros [=]. lia.
Qed.

Lemma write_rows_lookup (r : nat) (rows : list (list prim)) (g : grid) (q : nat * nat) :
  write_rows r rows g !! q =
    if decide (r ≤ q.1)
    then match body_at rows (q.1 - r, q.2) with
         | Some v => stored v
         | None => g !! q
         end
    else g !! q.
Proof.
  revert r g. induction rows as [|row rows IH]; intros r g; simpl.
  - unfold body_at. simpl. by destruct (decide _).
  - rewrite IH. destruct q as [qr qc]; simpl. unfold body_at; simpl.
    destruct (decide (S r ≤ qr)) as [Hr|Hr].
    + rewrite decide_True by lia.
      replace (qr - r) with (S (qr - S r)) by lia. simpl.
      destruct (rows !! (qr - S r) ≫= _); [done|].
      rewrite write_row_lookup. simpl. rewrite decide_False; [done|lia].
    + rewrite write_row_lookup. simpl.
      destruct (decide (r ≤ qr)) as [Hr'|Hr'].
      * assert (qr = r) as -> by lia. rewrite Nat.sub_diag. simpl.
        rewrite decide_True by (split; [done|lia]). by rewrite Nat.sub_0_r.
      * rewrite decide_False; [done|lia].
Qed.

(** A write at the origin, by position. *)
Lemma write_origin_lookup (rows : list (list prim)) (g : grid) (q : nat * nat) :
  write_rows 0 rows g !! q =
    match body_at rows q with Some v => stored v | None => g !! q end.
Proof.
  rewrite write_rows_lookup, decide_True by lia.
  rewrite Nat.sub_0_r. by destruct q.
Qed.

Lemma clear_lookup (g : grid) (p : nat * nat) :
  clear_A1_Z50000 g !! p = if decide (in_A1_Z50000 p) then None else g !! p.
Proof.
  unfold clear_A1_Z50000. destruct (decide (in_A1_Z50000 p)) as [Hin|Hout].
  - apply map_lookup_filter_None. right. intros x _ Hn. by apply Hn.
  - destruct (g !! p) as [x|] eqn:Hg.
    + by apply map_lookup_filter_Some.
    + apply map_lookup_filter_None. by left.
Qed.

(** ** Selection of columns *)

Lemma bind_ext_elem {A B} (f g : A → list B) (l : list A) :
  (∀ x, x ∈ l → f x = g x) → l ≫= f = l ≫= g.
Proof.
  induction l as [|a l IH]; intros H; [done|]. simpl.
  rewrite (H a) by left. f_equal. apply IH. intros x Hx. apply H. by right.
Qed.

Lemma filter_label_fst (cols : list (string * list cell)) (l : string) :
  NoDup (map fst cols) → l ∈ map fst cols →
  map fst (filter (λ s, s.1 = l) cols) = [l].
Proof.
  induction cols as [|[l' d] cols IH]; simpl; intros Hnd Hin.
  - by apply elem_of_nil in Hin.
  - apply NoDup_cons in Hnd as [Hl' Hnd].
    destruct (decide (l' = l)) as [->|Hne].
    + rewrite filter_cons_True by done. simpl. f_equal.
      rewrite (filter_none _ cols); [done|].
      intros [l2 d2] Hx Heq. simpl in Heq. subst l2.
      apply Hl'. apply list_elem_of_fmap. by exists (l, d2).
    + rewrite filter_cons_False by done.
      apply IH; [done|]. apply elem_of_cons in Hin as [->|]; done.
Qed.

Lemma select_columns (labels : list string) (df : DataFrame) :
  NoDup (columns df) → (∀ l, l ∈ labels → l ∈ columns df) →
  ∃ df', select labels df = Some df' ∧ columns df' = labels ∧
         index_len df' = index_len df.
Proof.
  intros Hnd Hin. unfold select.
  rewrite decide_True by (by apply Forall_forall).
  eexists; split; [done|]. split; [|done].
  unfold columns at 1. simpl.
  induction labels as [|l labels IH]; [done|]. simpl.
  rewrite map_app, filter_label_fst; [|done|apply Hin; left].
  simpl. f_equal. apply IH. intros l' Hl'. apply Hin. by right.
Qed.

(** Selecting the frame's own columns gives the frame back. *)
Lemma select_self_series (cols : list (string * list cell)) :
  NoDup (map fst cols) →
  (map fst cols ≫= λ l, filter (λ s, s.1 = l) cols) = cols.
Proof.
  induction cols as [|[l d] cols IH]; [done|]. simpl. intros Hnd.
  apply NoDup_cons in Hnd as [Hl Hnd].
  rewrite filter_cons_True by done.
  rewrite (filter_none _ cols).
  2:{ intros [l2 d2] Hx Heq. simpl in Heq. subst l2.
      apply Hl. apply list_elem_of_fmap. by exists (l, d2). }
  simpl. f_equal. rewrite <- (IH Hnd) at 2.
  apply bind_ext_elem. intros l' Hl'.
  rewrite filter_cons_False; [done|]. simpl. intros ->. done.
Qed.

Lemma reorder_columns (E : list string) (df : DataFrame) :
  NoDup (columns df) →
  ∃ df', reorder E df = Some df' ∧ columns df' = reconcile E (columns df) ∧
         index_len df' = index_len df.
Proof.
  intros Hnd. unfold reorder, reconcile. destruct E as [|e E]; [by exists df|].
  destruct (common_columns (e :: E) (columns df)) as [|c cs] eqn:Hc;
    [by exists df|].
  apply select_columns; [done|]. intros l. rewrite <- Hc.
  unfold new_columns, common_columns.
  rewrite elem_of_app, list_elem_of_filter, list_elem_of_filter. tauto.
Qed.

(** ** The reconciliation step *)

(** C1. With existing columns [E] and incoming columns [I], the step asks
    for the columns of [E] that are in [I], in [E]'s order, followed by the
    columns of [I] not among those, in [I]'s order; with no existing
    columns it asks for [I].  On a frame whose labels are distinct the
    re-indexed frame carries exactly that header. *)
Theorem reconcile_output_order (E I : list string) :
  reconcile E I =
    match E with
    | [] => I
    | _ => filter (λ col, col ∈ I) E
           ++ filter (λ col, col ∉ filter (λ col, col ∈ I) E) I
    end
  ∧ ∀ df, columns df = I → NoDup I →
      ∃ df', reorder E df = Some df' ∧ columns df' = reconcile E I.
Proof.
  split; [apply reconcile_unfold|].
  intros df <- Hnd. destruct (reorder_columns E df Hnd) as (df' & ? & ? & _).
  by exists df'.
Qed.

Lemma reconcile_output_order_witness :
  ∃ df', reorder ["Heim"; "Gast"; "Halle"]
           (mkFrame 1 [("Halle", [Str "x"]); ("Datum", [Num 1]); ("Heim", [Str "y"])])
         = Some df'
       ∧ columns df' = reconcile ["Heim"; "Gast"; "Halle"] ["Halle"; "Datum"; "Heim"].
Proof.
  apply (proj2 (reconcile_output_order ["Heim"; "Gast"; "Halle"]
                  ["Halle"; "Datum"; "Heim"])).
  - reflexivity.
  - apply (bool_decide_unpack _). vm_compute. exact I.
Defined.

(** C8. Reconciling the output again with the same incoming columns gives
    the output back. *)
Theorem reconcile_idempotent (E I : list string) :
  reconcile (reconcile E I) I = reconcile E I.
Proof. apply reconcile_fixed. intros x. apply reconcile_elem. Qed.

(** ** Running the script's monad *)

Lemma bind_run {A B} (m : M A) (f : A → M B) (w : world) :
  (m ≫= f) w =
    match m w with
    | (w', inr x) => f x w'
    | (w', inl e) => (w', inl e)
    end.
Proof. reflexivity. Qed.

Lemma bind_ok {A B} (m : M A) (f : A → M B) (w w' : world) (y : B) :
  (m ≫= f) w = (w', inr y) →
  ∃ w1 x, m w = (w1, inr x) ∧ f x w1 = (w', inr y).
Proof.
  rewrite bind_run. destruct (m w) as [w1 [e|x]]; [done|]. by exists w1, x.
Qed.

Lemma sheets_call_run (ev : event) (w : world) :
  sheets_call ev w =
    (step ev w, match next_fault w with Some e => inl e | None => inr () end).
Proof.
  unfold sheets_call, next_fault, step. rewrite !bind_run. simpl.
  destruct w as [sf s ag sh [|[e|] fs] tr]; reflexivity.
Qed.

Lemma sheet_get_run (sheet : string) (w : world) :
  sheet_get sheet w =
    (step (EvSheetGet sheet) w,
     match next_fault w with
     | Some e => inl e
     | None => if decide (is_Some (sheets w !! sheet)) then inr ()
               else inl (HttpError 400)
     end).
Proof.
  unfold sheet_get. rewrite bind_run, sheets_call_run.
  destruct (next_fault w); [done|]. rewrite bind_run. simpl.
  by destruct (decide _).
Qed.

Lemma add_sheet_run (sheet : string) (w : world) :
  add_sheet sheet w =
    match next_fault w with
    | Some e => (step (EvAddSheet sheet) w, inl e)
    | None =>
        if decide (is_Some (sheets w !! sheet))
        then (step (EvAddSheet sheet) w, inl (HttpError 400))
        else (set_sheets (<[sheet := ∅]> (sheets w)) (step (EvAddSheet sheet) w),
              inr ())
    end.
Proof.
  unfold add_sheet. rewrite bind_run, sheets_call_run.
  destruct (next_fault w); [done|]. rewrite bind_run. simpl.
  by destruct (decide _).
Qed.

Lemma values_get_run (sheet : string) (w : world) :
  values_get_A1_Z1 sheet w =
    (step (EvValuesGet sheet) w,
     match next_fault w with
     | Some e => inl e
     | None =>
         match sheets w !! sheet with
         | Some g => inr (read_A1_Z1 g)
         | None => inl (HttpError 400)
         end
     end).
Proof.
  unfold values_get_A1_Z1. rewrite bind_run, sheets_call_run.
  destruct (next_fault w); [done|]. rewrite bind_run. simpl.
  by destruct (sheets w !! sheet).
Qed.

Lemma values_clear_run (sheet : string) (w : world) :
  values_clear_A1_Z50000 sheet w =
    match next_fault w with
    | Some e => (step (EvValuesClear sheet) w, inl e)
    | None =>
        match sheets w !! sheet with
        | Some g => (set_sheets (<[sheet := clear_A1_Z50000 g]> (sheets w))
                       (step (EvValuesClear sheet) w), inr ())
        | None => (step (EvValuesClear sheet) w, inl (HttpError 400))
        end
    end.
Proof.
  unfold values_clear_A1_Z50000. rewrite bind_run, sheets_call_run.
  destruct (next_fault w); [done|]. rewrite bind_run. simpl.
  by destruct (sheets w !! sheet).
Qed.

Lemma values_update_run (sheet : string) (values : list (list cell)) (w : world) :
  values_update_A1 sheet values w =
    match to_json_rows values with
    | inl e => (w, inl e)
    | inr body =>
        match next_fault w with
        | Some e => (step (EvValuesUpdate sheet body) w, inl e)
        | None =>
            match sheets w !! sheet with
            | Some g => (set_sheets (<[sheet := write_rows 0 body g]> (sheets w))
                           (step (EvValuesUpdate sheet body) w), inr ())
            | None => (step (EvValuesUpdate sheet body) w, inl (HttpError 400))
            end
        end
    end.
Proof.
  unfold values_update_A1. rewrite bind_run. unfold lift.
  destruct (to_json_rows values) as [e|body]; [done|].
  rewrite bind_run, sheets_call_run.
  destruct (next_fault w); [done|]. rewrite bind_run. simpl.
  by destruct (sheets w !! sheet).
Qed.

Lemma ensure_sheet_ok (sheet_name : string) (w w' : world) :
  ensure_sheet sheet_name w = (w', inr ()) →
  sheets w' = <[sheet_name := default ∅ (sheets w !! sheet_name)]> (sheets w) ∧
  settings w' = settings w ∧ settings_file w' = settings_file w ∧
  all_games w' = all_games w ∧
  ∃ evs, trace w' = trace w ++ evs.
Proof.
  unfold ensure_sheet, try_except, throw. rewrite sheet_get_run.
  destruct (next_fault w) as [e|] eqn:Hf.
  - destruct e as [status|name]; [|done].
    destruct (decide _); [|done]. rewrite add_sheet_run. simpl.
    destruct (next_fault (step _ w)); simpl; [done|].
    destruct (decide _) as [|Hn]; [done|]. intros [= <-]. simpl.
    apply eq_None_not_Some in Hn. rewrite Hn. simpl.
    repeat split; try done. eexists. by rewrite <- app_assoc.
  - destruct (decide (is_Some (sheets w !! sheet_name))) as [[g Hg]|Hn].
    + intros [= <-]. simpl. rewrite Hg. simpl.
      rewrite insert_id by done. repeat split; try done. by eexists.
    + rewrite decide_True by lia. rewrite add_sheet_run. simpl.
      destruct (next_fault (step _ w)); simpl; [done|].
      rewrite decide_False by done. intros [= <-]. simpl.
      apply eq_None_not_Some in Hn. rewrite Hn. simpl.
      repeat split; try done. eexists. by rewrite <- app_assoc.
Qed.

Lemma update_sheet_ok (spreadsheet_id sheet_name : string) (df : DataFrame)
    (w w' : world) :
  update_sheet spreadsheet_id sheet_name df w = (w', inr ()) →
  ∃ body,
    synced df (default ∅ (sheets w !! sheet_name)) = Some body ∧
    sheets w' =
      <[sheet_name := write_rows 0 body
          (clear_A1_Z50000 (default ∅ (sheets w !! sheet_name)))]> (sheets w) ∧
    settings w' = settings w ∧ settings_file w' = settings_file w ∧
    all_games w' = all_games w.
Proof.
  intros H. unfold update_sheet in H.
  apply bind_ok in H as (w1 & [] & H1 & H).
  apply ensure_sheet_ok in H1 as (Hs1 & Hd1 & Hf1 & Hg1 & _).
  set (g := default ∅ (sheets w !! sheet_name)) in *.
  apply bind_ok in H as (w2 & header & H2 & H).
  rewrite values_get_run in H2. destruct (next_fault w1); [done|].
  rewrite Hs1, lookup_insert_eq in H2. injection H2 as <- <-.
  apply bind_ok in H as (w3 & df' & H3 & H).
  unfold lift in H3.
  destruct (reorder _ _) as [df2|] eqn:Hre; [|done].
  simpl in H3. injection H3 as <- <-.
  apply bind_ok in H as (w4 & [] & H4 & H).
  rewrite values_clear_run in H4. destruct (next_fault _); [done|].
  simpl in H4. rewrite Hs1, lookup_insert_eq in H4. injection H4 as <-.
  rewrite values_update_run in H.
  destruct (to_json_rows (values_of df2)) as [e|body] eqn:Hj; [done|].
  destruct (next_fault _); [done|].
  simpl in H. rewrite lookup_insert_eq in H. injection H as <-.
  exists body. simpl. split.
  - unfold synced. rewrite Hre.
    change (match to_json_rows (values_of df2) with
            | inr b => Some b
            | inl _ => None
            end = Some body).
    by rewrite Hj.
  - rewrite !insert_insert_eq. done.
Qed.

(** ** Clearing before the write *)

(** C2, as the code has it.  After a run that completed, every cell of
    range [A1:Z50000] outside the rectangle just written is empty, and
    every cell outside both the range and the rectangle is as it was
    before the run. *)
Theorem clear_erases_region (spreadsheet_id sheet_name : string) (df : DataFrame)
    (w w' : world) :
  update_sheet spreadsheet_id sheet_name df w = (w', inr ()) →
  ∃ body g',
    synced df (default ∅ (sheets w !! sheet_name)) = Some body ∧
    sheets w' !! sheet_name = Some g' ∧
    ∀ p, body_at body p = None →
      (in_A1_Z50000 p → g' !! p = None) ∧
      (¬ in_A1_Z50000 p → g' !! p = default ∅ (sheets w !! sheet_name) !! p).
Proof.
  intros H. apply update_sheet_ok in H as (body & Hb & Hs & _).
  exists body, (write_rows 0 body
                  (clear_A1_Z50000 (default ∅ (sheets w !! sheet_name)))).
  split; [done|]. split; [by rewrite Hs, lookup_insert_eq|].
  intros p Hp. rewrite write_origin_lookup, Hp, clear_lookup.
  split; intros Hin.
  - by rewrite decide_True.
  - by rewrite decide_False.
Qed.

Lemma clear_erases_region_witness :
  let w := (update_sheet "id" "Men1" wide_frame empty_world).1 in
  let w' := (update_sheet "id" "Men1" narrow_frame w).1 in
  ∃ body g',
    synced narrow_frame (default ∅ (sheets w !! "Men1")) = Some body ∧
    sheets w' !! "Men1" = Some g' ∧
    ∀ p, body_at body p = None →
      (in_A1_Z50000 p → g' !! p = None) ∧
      (¬ in_A1_Z50000 p → g' !! p = default ∅ (sheets w !! "Men1") !! p).
Proof.
  apply (clear_erases_region "id" "Men1" narrow_frame
           (update_sheet "id" "Men1" wide_frame empty_world).1
           (update_sheet "id" "Men1" narrow_frame
              (update_sheet "id" "Men1" wide_frame empty_world).1).1).
  vm_compute. reflexivity.
Defined.

(** C2 as stated fails: a header cell in column [AA], written by a run
    with twenty-seven columns, survives a later run with one column. *)
Lemma stale_cell_beyond_column_Z :
  ∃ w1 w2 g,
    update_sheet "id" "Men1" wide_frame empty_world = (w1, inr ()) ∧
    update_sheet "id" "Men1" narrow_frame w1 = (w2, inr ()) ∧
    last (trace w2) = Some (EvValuesUpdate "Men1" [[PStr "c1"]]) ∧
    sheets w2 !! "Men1" = Some g ∧
    body_at [[PStr "c1"]] (0, 26) = None ∧
    g !! (0, 26) = Some (PStr "c27").
Proof.
  eexists _, _, _. 
  split; [vm_compute; reflexivity|].
  split; [vm_compute; reflexivity|].
  split; [vm_compute; reflexivity|].
  split; [vm_compute; reflexivity|].
  split; vm_compute; reflexivity.
Qed.

(** Writing the same body over the cleared result changes nothing. *)
Lemma rewrite_same_body (body : list (list prim)) (g : grid) :
  write_rows 0 body (clear_A1_Z50000 (write_rows 0 body (clear_A1_Z50000 g)))
  = write_rows 0 body (clear_A1_Z50000 g).
Proof.
  apply map_eq. intros p.
  rewrite !write_origin_lookup. destruct (body_at body p) eqn:Hp; [done|].
  rewrite !clear_lookup. destruct (decide _); [done|].
  by rewrite write_origin_lookup, Hp, clear_lookup, decide_False.
Qed.

(** ** Reading the header back *)

Lemma trim_trailing_app_empty (l : list string) (n : nat) :
  "" ∉ l → trim_trailing (l ++ replicate n "") = l.
Proof.
  intros Hl. induction l as [|s l IH]; simpl.
  - induction n as [|n IHn]; [done|]. simpl. by rewrite IHn.
  - apply not_elem_of_cons in Hl as [Hs Hl]. rewrite (IH Hl).
    destruct l; [|done]. by rewrite decide_False.
Qed.

Lemma length_trim_trailing (l : list string) :
  length (trim_trailing l) ≤ length l.
Proof.
  induction l as [|s l IH]; simpl; [done|].
  destruct (trim_trailing l); [destruct (decide _)|]; simpl in *; lia.
Qed.

Lemma length_existing_columns (g : grid) :
  length (existing_columns (read_A1_Z1 g)) ≤ column_ceiling.
Proof.
  unfold read_A1_Z1.
  pose proof (length_trim_trailing
    (map (λ c, render (g !! (0, c))) (seq 0 column_ceiling))) as H.
  rewrite length_map, length_seq in H.
  destruct (trim_trailing _); simpl in *; lia.
Qed.

(** The first [n] cells of a row holding [labels] and nothing else. *)
Lemma map_lookup_default_seq (labels : list string) (n : nat) :
  map (λ c, default "" (labels !! c)) (seq 0 n)
  = take n labels ++ replicate (n - length labels) "".
Proof.
  revert labels. induction n as [|n IH]; intros labels; [done|].
  destruct labels as [|l labels]; simpl.
  - f_equal. rewrite <- seq_shift, map_map. simpl.
    specialize (IH []). rewrite take_nil in IH. simpl in IH.
    rewrite Nat.sub_0_r in IH. exact IH.
  - f_equal. rewrite <- seq_shift, map_map. apply IH.
Qed.

Lemma to_json_row_labels (labels : list string) :
  to_json_row (map Str labels) = inr (map PStr labels).
Proof. induction labels as [|l labels IH]; [done|]. simpl. by rewrite IH. Qed.

Lemma to_json_rows_header (df : DataFrame) (body : list (list prim)) :
  to_json_rows (values_of df) = inr body →
  body !! 0 = Some (map PStr (columns df)).
Proof.
  unfold values_of. simpl. rewrite to_json_row_labels.
  destruct (to_json_rows (values_tolist df)); [done|]. by intros [= <-].
Qed.

Lemma read_back_header (g : grid) (labels : list string) (body : list (list prim)) :
  body !! 0 = Some (map PStr labels) → "" ∉ labels →
  existing_columns (read_A1_Z1 (write_rows 0 body (clear_A1_Z50000 g)))
  = take column_ceiling labels.
Proof.
  intros Hb Hl. unfold read_A1_Z1.
  assert (Hrow : map (λ c, render (write_rows 0 body (clear_A1_Z50000 g) !! (0, c)))
                   (seq 0 column_ceiling)
                 = map (λ c, default "" (labels !! c)) (seq 0 column_ceiling)).
  { apply map_ext_in. intros c Hc. apply in_seq in Hc.
    rewrite write_origin_lookup. unfold body_at. simpl. rewrite Hb. simpl.
    rewrite list_lookup_fmap. destruct (labels !! c) as [l|] eqn:Hlc; simpl.
    - unfold stored. rewrite decide_False; [done|].
      intros [= ->]. apply Hl. by eapply list_elem_of_lookup_2.
    - rewrite clear_lookup, decide_True; [done|].
      unfold in_A1_Z50000, row_ceiling. cbn [fst snd]. lia. }
  rewrite Hrow, map_lookup_default_seq, trim_trailing_app_empty.
  - by destruct (take column_ceiling labels).
  - intros Hin. apply Hl. by apply (subseteq_take column_ceiling labels).
Qed.

Lemma filter_ext_elem {A} (P Q : A → Prop) `{!∀ x, Decision (P x)}
    `{!∀ x, Decision (Q x)} (l : list A) :
  (∀ x, x ∈ l → P x ↔ Q x) → filter P l = filter Q l.
Proof.
  induction l as [|a l IH]; intros Hl; [done|].
  assert (filter P l = filter Q l) as IH'.
  { apply IH. intros x Hx. apply Hl. by right. }
  destruct (decide (P a)) as [Hp|Hp].
  - rewrite !filter_cons_True; [by f_equal| |done]. apply Hl; [left|done].
  - rewrite !filter_cons_False; [done| |done].
    intros Hq. apply Hp, Hl; [left|done].
Qed.

Lemma filter_notin_take (N : list string) (k : nat) :
  NoDup N → filter (λ x, x ∉ take k N) N = drop k N.
Proof.
  revert k. induction N as [|a N IH]; intros k Hnd; [by destruct k|].
  apply NoDup_cons in Hnd as [Ha Hnd]. destruct k as [|k]; simpl.
  - apply filter_all. intros x _. apply not_elem_of_nil.
  - rewrite filter_cons_False by (intros Hn; apply Hn; left).
    rewrite <- (IH k Hnd). apply filter_ext_elem. intros x Hx.
    rewrite not_elem_of_cons. split; [tauto|]. intros Hn. split; [|done].
    intros ->. done.
Qed.

Lemma reconcile_take_drop (E I : list string) (n : nat) :
  NoDup I → length E ≤ n →
  filter (λ x, x ∉ take n (reconcile E I)) I = drop n (reconcile E I).
Proof.
  intros Hnd Hlen. rewrite reconcile_unfold. destruct E as [|e E].
  { by apply filter_notin_take. }
  set (C := common_columns (e :: E) I).
  assert (length C ≤ n) as HC.
  { etrans; [apply length_filter|done]. }
  rewrite take_app_ge, drop_app_ge by done.
  unfold new_columns. fold C.
  rewrite <- (filter_notin_take (filter (λ col, col ∉ C) I) (n - length C))
    by (by apply NoDup_filter).
  rewrite list_filter_filter. apply filter_ext_elem. intros x Hx.
  rewrite not_elem_of_app. tauto.
Qed.

(** ** Normalisation keeps the labels *)

Lemma columns_map_columns_where (p : list cell → bool) (f : cell → cell)
    (df : DataFrame) :
  columns (map_columns_where p f df) = columns df.
Proof.
  unfold columns, map_columns_where. simpl. rewrite map_map.
  apply map_ext. intros [l d]. simpl. by destruct (p d).
Qed.

Lemma columns_normalize (df : DataFrame) : columns (normalize df) = columns df.
Proof.
  unfold normalize, stringify_time, stringify_timedelta, stringify_datetime,
    replace_nan.
  by rewrite !columns_map_columns_where.
Qed.

(** ** Running the reconciliation a second time *)

Lemma select_self (df : DataFrame) :
  NoDup (columns df) → select (columns df) df = Some df.
Proof.
  intros Hnd. unfold select. rewrite decide_True by (by apply Forall_forall).
  unfold columns. rewrite select_self_series by done. by destruct df.
Qed.

Lemma reorder_select (E : list string) (df df' : DataFrame) :
  NoDup (columns df) → reorder E df = Some df' →
  select (reconcile E (columns df)) df = Some df'.
Proof.
  intros Hnd. unfold reorder, reconcile. destruct E as [|e E].
  - intros [= <-]. by apply select_self.
  - destruct (common_columns (e :: E) (columns df)); [|done].
    intros [= <-]. by apply select_self.
Qed.

Lemma reorder_again (E : list string) (df df' : DataFrame) (n : nat) :
  NoDup (columns df) → 0 < n → length E ≤ n →
  reorder E df = Some df' →
  reorder (take n (columns df')) df = Some df'.
Proof.
  intros Hnd Hn Hlen Hre.
  destruct (reorder_columns E df Hnd) as (df2 & Hre2 & Hcols & _).
  rewrite Hre in Hre2. injection Hre2 as <-.
  pose proof (reorder_select E df df' Hnd Hre) as Hsel.
  rewrite Hcols. set (O := reconcile E (columns df)) in *.
  unfold reorder. destruct (take n O) as [|o os] eqn:Htake.
  - assert (O = []) as HO.
    { destruct O; [done|]. destruct n; [lia|done]. }
    assert (columns df = []) as HI.
    { destruct (columns df) as [|i I] eqn:HI; [done|]. exfalso.
      apply (not_elem_of_nil i). rewrite <- HO. apply reconcile_elem.
      left. }
    rewrite <- Hsel. replace O with (columns df) by congruence.
    symmetry. by apply select_self.
  - rewrite <- Htake.
    assert (common_columns (take n O) (columns df) = take n O) as ->.
    { apply filter_all. intros x Hx. apply (reconcile_elem E).
      by apply (subseteq_take n O). }
    rewrite Htake at 1. rewrite <- Htake.
    unfold new_columns.
    assert (common_columns (take n O) (columns df) = take n O) as ->.
    { apply filter_all. intros x Hx. apply (reconcile_elem E).
      by apply (subseteq_take n O). }
    unfold O at 2. rewrite reconcile_take_drop by done.
    fold O. by rewrite take_drop.
Qed.

(** ** A second run on the same frame *)

Lemma synced_again (df : DataFrame) (g : grid) (body : list (list prim)) :
  NoDup (columns df) → "" ∉ columns df →
  synced df g = Some body →
  synced df (write_rows 0 body (clear_A1_Z50000 g)) = Some body.
Proof.
  intros Hnd Hne. unfold synced.
  destruct (reorder (existing_columns (read_A1_Z1 g)) (normalize df))
    as [df'|] eqn:Hre; [|done].
  cbn [mbind option_bind].
  destruct (to_json_rows (values_of df')) as [e|b] eqn:Hj; [done|].
  intros [= ->].
  assert (NoDup (columns (normalize df))) as Hnd' by (by rewrite columns_normalize).
  destruct (reorder_columns (existing_columns (read_A1_Z1 g)) _ Hnd')
    as (df2 & Hre2 & Hcols & _).
  rewrite Hre in Hre2. injection Hre2 as <-.
  rewrite (read_back_header g (columns df') body).
  - assert (0 < column_ceiling) as Hpos by (unfold column_ceiling; lia).
    rewrite (reorder_again _ _ _ _ Hnd' Hpos (length_existing_columns g) Hre).
    cbn [mbind option_bind]. by rewrite Hj.
  - by apply to_json_rows_header.
  - rewrite Hcols. intros Hin. apply reconcile_elem in Hin.
    by rewrite columns_normalize in Hin.
Qed.

Lemma quiet_next (n : nat) (w : world) : quiet (S n) w → next_fault w = None.
Proof.
  unfold quiet, next_fault. destruct (faults w) as [|[e|] fs]; [done| |done].
  simpl. intros H. by apply Forall_cons in H as [? _].
Qed.

Lemma quiet_step (n : nat) (ev : event) (w : world) :
  quiet (S n) w → quiet n (step ev w).
Proof.
  unfold quiet, step. simpl. destruct (faults w) as [|f fs]; simpl.
  - intros _. rewrite take_nil. constructor.
  - intros H. by apply Forall_cons in H as [_ ?].
Qed.

Lemma update_sheet_runs (spreadsheet_id sheet_name : string) (df : DataFrame)
    (w : world) (g : grid) (body : list (list prim)) :
  sheets w !! sheet_name = Some g → synced df g = Some body → quiet 4 w →
  ∃ w', update_sheet spreadsheet_id sheet_name df w = (w', inr ()).
Proof.
  intros Hg Hs Hq. unfold synced in Hs.
  destruct (reorder (existing_columns (read_A1_Z1 g)) (normalize df))
    as [df'|] eqn:Hre; [|done].
  cbn [mbind option_bind] in Hs.
  destruct (to_json_rows (values_of df')) as [e|b] eqn:Hj; [done|].
  injection Hs as ->.
  unfold update_sheet. rewrite bind_run.
  unfold ensure_sheet, try_except. rewrite sheet_get_run.
  rewrite (quiet_next _ _ Hq), decide_True by (by rewrite Hg).
  apply (quiet_step _ (EvSheetGet sheet_name)) in Hq.
  rewrite bind_run, values_get_run, (quiet_next _ _ Hq).
  cbn [sheets step set_faults record_event]. rewrite Hg.
  apply (quiet_step _ (EvValuesGet sheet_name)) in Hq.
  rewrite bind_run. unfold lift at 1. rewrite Hre. cbn [from_option].
  rewrite bind_run, values_clear_run, (quiet_next _ _ Hq).
  cbn [sheets step set_faults record_event]. rewrite Hg.
  apply (quiet_step _ (EvValuesClear sheet_name)) in Hq.
  rewrite values_update_run, Hj.
  assert (next_fault (set_sheets (<[sheet_name:=clear_A1_Z50000 g]> (sheets w))
            (step (EvValuesClear sheet_name)
               (step (EvValuesGet sheet_name) (step (EvSheetGet sheet_name) w))))
          = None) as ->.
  { apply (quiet_next 0). exact Hq. }
  cbn [sheets step set_faults record_event set_sheets].
  rewrite lookup_insert_eq. by eexists.
Qed.

(** C3. Two runs in a row on the same sub-view with the same frame, whose
    labels are distinct and not empty: the second run leaves every
    sub-view as the first run left it, and it goes through when no fault
    meets its four calls. *)
Theorem update_sheet_idempotent (spreadsheet_id sheet_name : string)
    (df : DataFrame) (w w1 : world) :
  NoDup (columns df) → "" ∉ columns df →
  update_sheet spreadsheet_id sheet_name df w = (w1, inr ()) →
  (∀ w2, update_sheet spreadsheet_id sheet_name df w1 = (w2, inr ()) →
         sheets w2 = sheets w1) ∧
  (quiet 4 w1 → ∃ w2, update_sheet spreadsheet_id sheet_name df w1 = (w2, inr ())).
Proof.
  intros Hnd Hne H1.
  apply update_sheet_ok in H1 as (body & Hb & Hs1 & _).
  set (g := default ∅ (sheets w !! sheet_name)) in *.
  assert (sheets w1 !! sheet_name = Some (write_rows 0 body (clear_A1_Z50000 g)))
    as Hg1 by (by rewrite Hs1, lookup_insert_eq).
  pose proof (synced_again df g body Hnd Hne Hb) as Hb2.
  split.
  - intros w2 H2. apply update_sheet_ok in H2 as (body2 & Hb2' & Hs2 & _).
    rewrite Hg1 in Hb2', Hs2. simpl in Hb2', Hs2.
    rewrite Hb2 in Hb2'. injection Hb2' as <-.
    rewrite Hs2, rewrite_same_body. by apply insert_id.
  - intros Hq. by eapply update_sheet_runs.
Qed.

Lemma update_sheet_idempotent_witness :
  let w1 := (update_sheet "id" "Men1" sample_frame empty_world).1 in
  (∀ w2, update_sheet "id" "Men1" sample_frame w1 = (w2, inr ()) →
         sheets w2 = sheets w1) ∧
  (quiet 4 w1 → ∃ w2, update_sheet "id" "Men1" sample_frame w1 = (w2, inr ())).
Proof.
  apply (update_sheet_idempotent "id" "Men1" sample_frame empty_world).
  - apply (bool_decide_unpack _). vm_compute. exact I.
  - apply (bool_decide_unpack _). vm_compute. exact I.
  - vm_compute. reflexivity.
Defined.

(** ** What the header read sees *)

Section blind.
Variable sheet_name : string.

Lemma blind_ret {A} (x : A) : blind sheet_name (mret x).
Proof. by intros w1 w2 H. Qed.

Lemma blind_throw {A} (e : exn) : blind sheet_name (@throw A e).
Proof. by intros w1 w2 H. Qed.

Lemma blind_lift {A} (r : exn + A) : blind sheet_name (lift r).
Proof. by intros w1 w2 H. Qed.

Lemma blind_bind {A B} (m : M A) (f : A → M B) :
  blind sheet_name m → (∀ x, blind sheet_name (f x)) →
  blind sheet_name (m ≫= f).
Proof.
  intros Hm Hf w1 w2 H. rewrite !bind_run.
  destruct (Hm w1 w2 H) as [H' Hr].
  destruct (m w1) as [w1' r1], (m w2) as [w2' r2]. simpl in *. subst r2.
  destruct r1 as [e|x]; [done|]. by apply Hf.
Qed.

Lemma blind_try {A} (m : M A) (h : exn → M A) :
  blind sheet_name m → (∀ e, blind sheet_name (h e)) →
  blind sheet_name (try_except m h).
Proof.
  intros Hm Hh w1 w2 H. unfold try_except.
  destruct (Hm w1 w2 H) as [H' Hr].
  destruct (m w1) as [w1' r1], (m w2) as [w2' r2]. simpl in *. subst r2.
  destruct r1 as [e|x]; [|done]. by apply Hh.
Qed.

Lemma alike_next_fault (w1 w2 : world) :
  alike sheet_name w1 w2 → next_fault w1 = next_fault w2.
Proof. intros (Hf & _). unfold next_fault. by rewrite Hf. Qed.

Lemma alike_step (ev : event) (w1 w2 : world) :
  alike sheet_name w1 w2 → alike sheet_name (step ev w1) (step ev w2).
Proof.
  intros (Hf & Ht & Hs). unfold alike, step. simpl. by rewrite Hf, Ht.
Qed.

Lemma alike_is_Some (w1 w2 : world) :
  alike sheet_name w1 w2 →
  is_Some (sheets w1 !! sheet_name) ↔ is_Some (sheets w2 !! sheet_name).
Proof.
  intros (_ & _ & Hs).
  destruct (sheets w1 !! sheet_name), (sheets w2 !! sheet_name); try done.
  all: split; intros [? ?]; done.
Qed.

Lemma alike_set_sheets (g1 g2 : grid) (w1 w2 : world) :
  alike sheet_name w1 w2 → header_agree g1 g2 →
  alike sheet_name (set_sheets (<[sheet_name := g1]> (sheets w1)) w1)
    (set_sheets (<[sheet_name := g2]> (sheets w2)) w2).
Proof.
  intros (Hf & Ht & _) Hg. unfold alike. simpl.
  by rewrite !lookup_insert_eq.
Qed.

Lemma blind_sheet_get : blind sheet_name (sheet_get sheet_name).
Proof.
  intros w1 w2 H. rewrite !sheet_get_run. simpl.
  split; [by apply alike_step|].
  rewrite (alike_next_fault _ _ H). destruct (next_fault w2); [done|].
  pose proof (alike_is_Some _ _ H) as Hs.
  destruct (decide (is_Some (sheets w1 !! sheet_name)));
    destruct (decide (is_Some (sheets w2 !! sheet_name))); tauto.
Qed.

Lemma blind_add_sheet : blind sheet_name (add_sheet sheet_name).
Proof.
  intros w1 w2 H. rewrite !add_sheet_run.
  rewrite (alike_next_fault _ _ H).
  destruct (next_fault w2); [by split; [apply alike_step|]|].
  pose proof (alike_is_Some _ _ H) as Hs.
  destruct (decide (is_Some (sheets w1 !! sheet_name)));
    destruct (decide (is_Some (sheets w2 !! sheet_name))); try tauto.
  - by split; [apply alike_step|].
  - split; [|done]. simpl.
    apply (alike_set_sheets ∅ ∅ (step _ w1) (step _ w2));
      [by apply alike_step|done].
Qed.

Lemma header_agree_read (g1 g2 : grid) :
  header_agree g1 g2 → read_A1_Z1 g1 = read_A1_Z1 g2.
Proof.
  intros H. unfold read_A1_Z1.
  assert (map (λ c, render (g1 !! (0, c))) (seq 0 column_ceiling)
          = map (λ c, render (g2 !! (0, c))) (seq 0 column_ceiling)) as ->; [|done].
  apply map_ext_in. intros c Hc. apply in_seq in Hc. rewrite H; [done|lia].
Qed.

Lemma blind_values_get : blind sheet_name (values_get_A1_Z1 sheet_name).
Proof.
  intros w1 w2 H. rewrite !values_get_run. simpl.
  split; [by apply alike_step|].
  rewrite (alike_next_fault _ _ H). destruct (next_fault w2); [done|].
  destruct H as (_ & _ & Hs).
  destruct (sheets w1 !! sheet_name), (sheets w2 !! sheet_name); try done.
  by rewrite (header_agree_read _ _ Hs).
Qed.

Lemma blind_values_clear : blind sheet_name (values_clear_A1_Z50000 sheet_name).
Proof.
  intros w1 w2 H. rewrite !values_clear_run.
  rewrite (alike_next_fault _ _ H).
  destruct (next_fault w2); [by split; [apply alike_step|]|].
  pose proof H as (_ & _ & Hs).
  destruct (sheets w1 !! sheet_name) as [g1|], (sheets w2 !! sheet_name) as [g2|];
    try done.
  - split; [|done]. simpl.
    apply (alike_set_sheets _ _ (step _ w1) (step _ w2));
      [by apply alike_step|].
    intros c Hc. rewrite !clear_lookup.
    destruct (decide _); [done|by apply Hs].
  - by split; [apply alike_step|].
Qed.

Lemma blind_values_update (values : list (list cell)) :
  blind sheet_name (values_update_A1 sheet_name values).
Proof.
  intros w1 w2 H. rewrite !values_update_run.
  destruct (to_json_rows values) as [e|body]; [done|].
  rewrite (alike_next_fault _ _ H).
  destruct (next_fault w2); [by split; [apply alike_step|]|].
  pose proof H as (_ & _ & Hs).
  destruct (sheets w1 !! sheet_name) as [g1|], (sheets w2 !! sheet_name) as [g2|];
    try done.
  - split; [|done]. simpl.
    apply (alike_set_sheets _ _ (step _ w1) (step _ w2));
      [by apply alike_step|].
    intros c Hc. rewrite !write_origin_lookup.
    destruct (body_at body (0, c)); [done|]. by apply Hs.
  - by split; [apply alike_step|].
Qed.

Lemma blind_update_sheet (spreadsheet_id : string) (df : DataFrame) :
  blind sheet_name (update_sheet spreadsheet_id sheet_name df).
Proof.
  unfold update_sheet, ensure_sheet.
  apply blind_bind.
  { apply blind_try; [apply blind_sheet_get|].
    intros [status|name]; [|apply blind_throw].
    destruct (decide _); [apply blind_add_sheet|apply blind_throw]. }
  intros _. apply blind_bind; [apply blind_values_get|].
  intros header. apply blind_bind; [apply blind_lift|].
  intros df'. apply blind_bind; [apply blind_values_clear|].
  intros _. apply blind_values_update.
Qed.

End blind.

(** C9. The header read returns at most twenty-six names, and it returns
    the same names for two sub-views that have the same cells in [A1:Z1]:
    whatever the sub-view holds from column [AA] on, a run gives the same
    outcome and issues the same calls with the same request bodies. *)
Theorem header_beyond_column_Z_invisible (spreadsheet_id sheet_name : string)
    (df : DataFrame) (w : world) (g g' : grid) :
  sheets w !! sheet_name = Some g →
  header_agree g g' →
  let w' := set_sheets (<[sheet_name := g']> (sheets w)) w in
  length (existing_columns (read_A1_Z1 g)) ≤ 26 ∧
  existing_columns (read_A1_Z1 g) = existing_columns (read_A1_Z1 g') ∧
  (update_sheet spreadsheet_id sheet_name df w).2
  = (update_sheet spreadsheet_id sheet_name df w').2 ∧
  trace (update_sheet spreadsheet_id sheet_name df w).1
  = trace (update_sheet spreadsheet_id sheet_name df w').1.
Proof.
  intros Hg Hagree w'.
  split; [apply length_existing_columns|].
  split; [by rewrite (header_agree_read g g')|].
  assert (alike sheet_name w w') as Hw.
  { unfold alike, w'. simpl. rewrite Hg, lookup_insert_eq. done. }
  destruct (blind_update_sheet sheet_name spreadsheet_id df w w' Hw)
    as [(_ & Ht & _) Hr].
  done.
Qed.

Lemma header_beyond_column_Z_invisible_witness :
  let w := set_sheets {[ "Men1" := grid_Z_AA ]} empty_world in
  let w' := set_sheets (<["Men1" := grid_Z]> (sheets w)) w in
  length (existing_columns (read_A1_Z1 grid_Z_AA)) ≤ 26 ∧
  existing_columns (read_A1_Z1 grid_Z_AA) = existing_columns (read_A1_Z1 grid_Z) ∧
  (update_sheet "id" "Men1" sample_frame w).2
  = (update_sheet "id" "Men1" sample_frame w').2 ∧
  trace (update_sheet "id" "Men1" sample_frame w).1
  = trace (update_sheet "id" "Men1" sample_frame w').1.
Proof.
  apply (header_beyond_column_Z_invisible "id" "Men1" sample_frame
           (set_sheets {[ "Men1" := grid_Z_AA ]} empty_world) grid_Z_AA grid_Z).
  - vm_compute. reflexivity.
  - intros c Hc. unfold column_ceiling in Hc.
    do 26 (destruct c as [|c]; [vm_compute; reflexivity|]). lia.
Defined.

(** ** Normalisation, cell by cell *)





Lemma existsb_none {A} (P : A → bool) (l : list A) :
  (∀ x, P x = false) → existsb P l = false.
Proof. intros H. induction l as [|a l IH]; [done|]. simpl. by rewrite H, IH. Qed.




Lemma forallb_exclusive (l : list cell) :
  l ≠ [] → forallb is_ts l = true → forallb is_td l = false.
Proof. destruct l as [|[] l]; done. Qed.






(** ** The resolver *)

Lemma call_run {A} (ev : event) (r : exn + A) (w : world) :
  call ev r w = (record_event ev w, r).
Proof. unfold call. rewrite bind_run. simpl. unfold lift. by destruct r. Qed.

Lemma get_spreadsheet_id_run (env : services) (w : world) :
  get_spreadsheet_id env w =
    if decide (configured_id w ≠ "") then
      match spreadsheets_get env (configured_id w) with
      | inr _ => (record_event (EvSpreadsheetGet (configured_id w)) w,
                  inr (configured_id w))
      | inl (HttpError _) =>
          search_or_create env (configured_name w)
            (record_event (EvSpreadsheetGet (configured_id w)) w)
      | inl e => (record_event (EvSpreadsheetGet (configured_id w)) w, inl e)
      end
    else search_or_create env (configured_name w) w.
Proof.
  unfold get_spreadsheet_id. rewrite bind_run. simpl.
  destruct (decide (configured_id w ≠ "")); [|done].
  rewrite bind_run. unfold try_except. rewrite bind_run, call_run.
  destruct (spreadsheets_get env (configured_id w)) as [[s|nm]|[]]; done.
Qed.

Lemma save_settings_run (env : services) (w : world) :
  save_settings env w =
    match json_dump env (settings w) with
    | inl e => (record_event (EvSettingsSave (settings w)) w, inl e)
    | inr _ => (set_settings_file (Some (settings w))
                  (record_event (EvSettingsSave (settings w)) w), inr ())
    end.
Proof.
  unfold save_settings. rewrite bind_run. simpl. rewrite bind_run, call_run.
  by destruct (json_dump env (settings w)) as [e|[]].
Qed.


(** C5. A cached id that is there and answers the probe is returned as it
    is: the only call is the probe, the settings in memory and the settings
    file are untouched, and nothing is saved. *)
Theorem cached_id_returned_unchanged (env : services) (w : world) :
  configured_id w ≠ "" →
  spreadsheets_get env (configured_id w) = inr () →
  ∃ w', get_spreadsheet_id env w = (w', inr (configured_id w)) ∧
        settings w' = settings w ∧
        settings_file w' = settings_file w ∧
        trace w' = trace w ++ [EvSpreadsheetGet (configured_id w)].
Proof.
  intros Hid Hprobe. rewrite get_spreadsheet_id_run.
  rewrite decide_True by done. rewrite Hprobe. by eexists.
Qed.

Lemma cached_id_returned_unchanged_witness :
  ∃ w', get_spreadsheet_id env_ok cached_world = (w', inr "abc") ∧
        settings w' = settings cached_world ∧
        settings_file w' = settings_file cached_world ∧
        trace w' = trace cached_world ++ [EvSpreadsheetGet "abc"].
Proof.
  apply (cached_id_returned_unchanged env_ok cached_world).
  - vm_compute. discriminate.
  - reflexivity.
Defined.




(** ** Teams without an id *)

Lemma process_team_without_id (env : services) (spreadsheet_id : string)
    (team : string * team_data) (w : world) :
  ¬ has_source_id team →
  process_team env spreadsheet_id team w = (w, inr ()).
Proof.
  unfold has_source_id. intros H. apply dec_stable in H.
  unfold process_team, try_except. by rewrite decide_True.
Qed.


(** C10. A team whose id is absent or empty leaves the world as it is: no
    download, no Sheets call, nothing added to [all_games]; the loop goes
    on, and it ends in the world it would have ended in had the team not
    been configured at all. *)
Theorem team_without_id_skipped (env : services) (spreadsheet_id : string) :
  (∀ team w, ¬ has_source_id team →
     process_team env spreadsheet_id team w = (w, inr ())) ∧
  (∀ teams w,
     for_each (process_team env spreadsheet_id) teams w
     = for_each (process_team env spreadsheet_id) (filter has_source_id teams) w).
Proof.
  split; [intros; by apply process_team_without_id|].
  intros teams. induction teams as [|team teams IH]; intros w; [done|].
  destruct (decide (has_source_id team)) as [Hid|Hid].
  - rewrite filter_cons_True by done. simpl. rewrite !bind_run.
    destruct (process_team _ _ _ _) as [w' [e|[]]]; [done|]. apply IH.
  - rewrite filter_cons_False by done. simpl. rewrite bind_run.
    rewrite process_team_without_id by done. apply IH.
Qed.

Lemma team_without_id_skipped_witness :
  process_team env_ok "abc" ("Women1", mkTeam (Some "")) cached_world
  = (cached_world, inr ()).
Proof.
  apply (proj1 (team_without_id_skipped env_ok "abc")).
  vm_compute. intros H. by apply H.
Defined.

(** ** Sorting by a column *)











(** ** Concatenation *)





(** ** A sort that does not keep ties in order *)






Section insertion.
Variable keys : list cell.
Hypothesis present : Forall (λ k, is_nan k = false) keys.
Hypothesis one_type : comparable keys = true.





End insertion.


(** ** Only Sheets calls on the sheet *)

Section always.
Context (R : world → world → Prop) `{!PreOrder R}.

Lemma always_ret {A} (x : A) : always R (mret x).
Proof. intros w. reflexivity. Qed.

Lemma always_throw {A} (e : exn) : always R (@throw A e).
Proof. intros w. reflexivity. Qed.

Lemma always_lift {A} (r : exn + A) : always R (lift r).
Proof. intros w. reflexivity. Qed.

Lemma always_bind {A B} (m : M A) (f : A → M B) :
  always R m → (∀ x, always R (f x)) → always R (m ≫= f).
Proof.
  intros Hm Hf w. rewrite bind_run. specialize (Hm w).
  destruct (m w) as [w1 [e|x]]; [done|]. simpl in Hm.
  etrans; [exact Hm|apply Hf].
Qed.

Lemma always_try {A} (m : M A) (h : exn → M A) :
  always R m → (∀ e, always R (h e)) → always R (try_except m h).
Proof.
  intros Hm Hh w. unfold try_except. specialize (Hm w).
  destruct (m w) as [w1 [e|x]]; [|done]. simpl in Hm.
  etrans; [exact Hm|apply Hh].
Qed.
End always.

Lemma sheet_events_preorder (sheet : string) : PreOrder (sheet_events sheet).
Proof.
  split.
  - intros w. split; [|done]. exists []. by rewrite app_nil_r.
  - intros w1 w2 w3 [(e1 & H1 & F1) G1] [(e2 & H2 & F2) G2].
    split; [|congruence]. exists (e1 ++ e2).
    split; [by rewrite H2, H1, app_assoc|by apply Forall_app].
Qed.

Lemma sheet_events_step (sheet : string) (ev : event) (w : world) :
  on_sheet sheet ev → sheet_events sheet w (step ev w).
Proof. intros H. split; [|done]. exists [ev]. split; [done|by constructor]. Qed.

Lemma sheet_events_set_sheets (sheet : string) (s : gmap string grid)
    (w w' : world) :
  sheet_events sheet w w' → sheet_events sheet w (set_sheets s w').
Proof. by intros [? ?]. Qed.

Lemma always_sheet_get (sheet : string) :
  always (sheet_events sheet) (sheet_get sheet).
Proof. intros w. rewrite sheet_get_run. by apply sheet_events_step. Qed.

Lemma always_add_sheet (sheet : string) :
  always (sheet_events sheet) (add_sheet sheet).
Proof.
  intros w. rewrite add_sheet_run.
  destruct (next_fault w); [by apply sheet_events_step|].
  destruct (decide _); [by apply sheet_events_step|].
  by apply sheet_events_set_sheets, sheet_events_step.
Qed.

Lemma always_values_get (sheet : string) :
  always (sheet_events sheet) (values_get_A1_Z1 sheet).
Proof. intros w. rewrite values_get_run. by apply sheet_events_step. Qed.

Lemma always_values_clear (sheet : string) :
  always (sheet_events sheet) (values_clear_A1_Z50000 sheet).
Proof.
  intros w. rewrite values_clear_run.
  destruct (next_fault w); [by apply sheet_events_step|].
  destruct (sheets w !! sheet); [|by apply sheet_events_step].
  by apply sheet_events_set_sheets, sheet_events_step.
Qed.

Lemma always_values_update (sheet : string) (values : list (list cell)) :
  always (sheet_events sheet) (values_update_A1 sheet values).
Proof.
  intros w. rewrite values_update_run.
  destruct (to_json_rows values); [apply sheet_events_preorder|].
  destruct (next_fault w); [by apply sheet_events_step|].
  destruct (sheets w !! sheet); [|by apply sheet_events_step].
  by apply sheet_events_set_sheets, sheet_events_step.
Qed.

Lemma always_update_sheet (spreadsheet_id sheet_name : string) (df : DataFrame) :
  always (sheet_events sheet_name) (update_sheet spreadsheet_id sheet_name df).
Proof.
  unfold update_sheet, ensure_sheet.
  apply always_bind; [apply sheet_events_preorder| |].
  { apply always_try; [apply sheet_events_preorder|apply always_sheet_get|].
    intros [status|name]; [|apply always_throw, sheet_events_preorder].
    destruct (decide _); [apply always_add_sheet|apply always_throw, sheet_events_preorder]. }
  intros _. apply always_bind; [apply sheet_events_preorder|apply always_values_get|].
  intros header. apply always_bind; [apply sheet_events_preorder|apply always_lift, sheet_events_preorder|].
  intros df'. apply always_bind; [apply sheet_events_preorder|apply always_values_clear|].
  intros _. apply always_values_update.
Qed.

(** ** The frames the loop accumulates *)





(** ** The combined frame *)


Lemma sync_all_run (env : services) (spreadsheet_id : string) (w : world) :
  sync_all env spreadsheet_id w =
    match all_games w with
    | [] => (w, inr ())
    | games =>
        match combine env games with
        | inl e => (w, inl e)
        | inr c => update_sheet spreadsheet_id "All" c w
        end
    end.
Proof.
  unfold sync_all. rewrite bind_run. simpl.
  destruct (all_games w) as [|g gs]; [done|].
  rewrite bind_run. unfold lift. by destruct (combine env (g :: gs)).
Qed.






(** ** The values of the examples *)

Example strftime_Ymd_example :
  strftime_Ymd (mkTimestamp 2024 3 5 0 0 0) = "2024-03-05".
Proof. reflexivity. Qed.

Example strftime_HM_example : strftime_HM (mkTime 14 30 0) = "14:30".
Proof. reflexivity. Qed.

Example timedelta_str_example :
  timedelta_str 5400 = "0 days 01:30:00" ∧
  timedelta_str (-3600) = "-1 days +23:00:00".
Proof. split; reflexivity. Qed.

Example iso_week_examples :
  iso_week (mkTimestamp 2024 3 5 0 0 0) = 10 ∧
  iso_week (mkTimestamp 2021 1 1 0 0 0) = 53 ∧
  iso_week (mkTimestamp 2024 12 30 0 0 0) = 1 ∧
  iso_week (mkTimestamp 2023 1 1 0 0 0) = 52.
Proof. repeat split; reflexivity. Qed.

Example normalize_sample :
  series (normalize sample_frame)
  = [("Datum", [Str "2024-03-05"; Str "2024-03-09"]);
     ("Zeit", [Str "14:30"; Str "09:05"]);
     ("Resultat", [Str "71:64"; Str ""])].
Proof. reflexivity. Qed.

Example reconcile_example :
  reconcile ["Heim"; "Gast"; "Halle"] ["Halle"; "Datum"; "Heim"]
  = ["Heim"; "Halle"; "Datum"].
Proof. reflexivity. Qed.

Example sheet_name_of_example :
  sheet_name_of "Herren 1. Liga National Gruppe West" = "Herren 1. Liga National ".
Proof. reflexivity. Qed.

(** ** [main] up to the loop *)

Lemma share_spreadsheet_returns (env : services) (spreadsheet_id email : string)
    (w : world) :
  (share_spreadsheet env spreadsheet_id email w).2 = inr () ∧
  all_games (share_spreadsheet env spreadsheet_id email w).1 = all_games w.
Proof.
  unfold share_spreadsheet, try_except. rewrite call_run.
  by destruct (permissions_create env spreadsheet_id email) as [e|[]].
Qed.

Lemma for_each_share_returns (env : services) (spreadsheet_id : string)
    (users : list string) (w : world) :
  (for_each (share_spreadsheet env spreadsheet_id) users w).2 = inr ().
Proof.
  revert w. induction users as [|u users IH]; intros w; [done|].
  simpl. rewrite bind_run.
  destruct (share_spreadsheet_returns env spreadsheet_id u w) as [Hr _].
  destruct (share_spreadsheet env spreadsheet_id u w) as [w1 r].
  simpl in Hr. subst r. apply IH.
Qed.

(** Once the settings are read, name a team, the services are there and
    the resolver has given an id, [main] runs the loop over the teams and
    then the combined sync, from a world with an empty accumulator. *)
Lemma main_body_loop (env : services) (w w_r : world) (d : settings_data)
    (spreadsheet_id : string) :
  settings_file w = Some d → teams d ≠ [] → credentials env = inr () →
  get_spreadsheet_id env (set_settings d w) = (w_r, inr spreadsheet_id) →
  ∃ w_s, all_games w_s = [] ∧
    main_body env w
    = (for_each (process_team env spreadsheet_id) (teams d);;
       sync_all env spreadsheet_id) w_s.
Proof.
  intros Hfile Hteams Hcred Hres. unfold main_body.
  rewrite bind_run. unfold load_settings. rewrite bind_run. simpl.
  rewrite Hfile. simpl. rewrite bind_run. simpl.
  destruct (teams d) as [|t ts] eqn:Ht; [done|].
  rewrite bind_run. unfold lift at 1. rewrite Hcred.
  rewrite bind_run, Hres. rewrite bind_run. simpl. rewrite bind_run.
  pose proof (for_each_share_returns env spreadsheet_id
                (default [] (googleSheets (settings w_r) ≫= writePrivilege)) w_r) as Hs.
  destruct (for_each _ _ w_r) as [w2 r]. simpl in Hs. subst r.
  rewrite bind_run. simpl.
  exists (set_all_games [] w2). split; [done|]. by rewrite !bind_run.
Qed.

(** ** The resolver: search, creation and what is persisted *)

Lemma persist_run (env : services) (id name : string) (w : world) :
  (store_spreadsheet id name;; save_settings env;; mret id) w =
    let d := with_spreadsheet id name (settings w) in
    match json_dump env d with
    | inl e => (record_event (EvSettingsSave d) (set_settings d w), inl e)
    | inr _ => (set_settings_file (Some d)
                  (record_event (EvSettingsSave d) (set_settings d w)), inr id)
    end.
Proof.
  rewrite bind_run. unfold store_spreadsheet. rewrite bind_run. simpl.
  rewrite bind_run, save_settings_run. simpl. unfold with_spreadsheet.
  by destruct (json_dump env _) as [e|[]].
Qed.

Lemma search_or_create_run (env : services) (name : string) (w : world) :
  search_or_create env name w =
    let w1 := record_event (EvFilesList name) w in
    match files_list env name with
    | inl e => (w1, inl e)
    | inr (id :: _) => (store_spreadsheet id name;; save_settings env;; mret id) w1
    | inr [] =>
        let w2 := record_event (EvSpreadsheetCreate name) w1 in
        match spreadsheets_create env name with
        | inl e => (w2, inl e)
        | inr id => (store_spreadsheet id name;; save_settings env;; mret id) w2
        end
    end.
Proof.
  unfold search_or_create. rewrite bind_run, call_run.
  destruct (files_list env name) as [e|[|id ids]]; [done| |done].
  rewrite bind_run, call_run.
  by destruct (spreadsheets_create env name).
Qed.

Lemma probe_misses_run (env : services) (w : world) :
  probe_misses env w →
  get_spreadsheet_id env w
  = search_or_create env (configured_name w)
      (mkWorld (settings_file w) (settings w) (all_games w) (sheets w)
         (faults w) (trace w ++ probe_events w)).
Proof.
  intros Hmiss. rewrite get_spreadsheet_id_run. unfold probe_events.
  destruct (decide (configured_id w ≠ "")) as [Hid|Hid].
  - destruct Hmiss as [?|[status Hp]]; [done|]. by rewrite Hp.
  - rewrite app_nil_r. by destruct w.
Qed.

(** Step 2: when step 1 does not settle the id and the search finds
    spreadsheets of the name, the first one is taken and nothing is
    created; its id and the name go into the settings, which keep their
    teams and write privileges, and the file is written with them. *)
Theorem found_by_name_persisted (env : services) (w : world)
    (id : string) (others : list string) :
  probe_misses env w →
  files_list env (configured_name w) = inr (id :: others) →
  json_dump env (with_spreadsheet id (configured_name w) (settings w)) = inr () →
  ∃ w', get_spreadsheet_id env w = (w', inr id) ∧
        settings w' = with_spreadsheet id (configured_name w) (settings w) ∧
        settings_file w' = Some (settings w') ∧
        trace w' = trace w ++ probe_events w
                   ++ [EvFilesList (configured_name w); EvSettingsSave (settings w')].
Proof.
  intros Hmiss Hfiles Hdump.
  rewrite (probe_misses_run env w Hmiss), search_or_create_run, Hfiles.
  cbv zeta. rewrite persist_run. cbn [settings record_event]. rewrite Hdump.
  eexists. split; [done|]. simpl. by rewrite <- !app_assoc.
Qed.

Lemma found_by_name_persisted_witness :
  ∃ w', get_spreadsheet_id env_found fresh_world = (w', inr "xyz") ∧
        settings w' = with_spreadsheet "xyz" (configured_name fresh_world)
                        (settings fresh_world) ∧
        settings_file w' = Some (settings w') ∧
        trace w' = trace fresh_world ++ probe_events fresh_world
                   ++ [EvFilesList (configured_name fresh_world);
                       EvSettingsSave (settings w')].
Proof.
  apply (found_by_name_persisted env_found fresh_world "xyz" ["uvw"]).
  - left. reflexivity.
  - reflexivity.
  - reflexivity.
Defined.

(** Step 3: when step 1 does not settle the id and the search finds
    nothing, one spreadsheet is created under the name; its id and the name
    go into the settings and the settings into the file. *)
Theorem created_and_persisted (env : services) (w : world) (id : string) :
  probe_misses env w →
  files_list env (configured_name w) = inr [] →
  spreadsheets_create env (configured_name w) = inr id →
  json_dump env (with_spreadsheet id (configured_name w) (settings w)) = inr () →
  ∃ w', get_spreadsheet_id env w = (w', inr id) ∧
        settings w' = with_spreadsheet id (configured_name w) (settings w) ∧
        settings_file w' = Some (settings w') ∧
        trace w' = trace w ++ probe_events w
                   ++ [EvFilesList (configured_name w);
                       EvSpreadsheetCreate (configured_name w);
                       EvSettingsSave (settings w')].
Proof.
  intros Hmiss Hfiles Hcreate Hdump.
  rewrite (probe_misses_run env w Hmiss), search_or_create_run, Hfiles.
  cbv zeta. rewrite Hcreate, persist_run. cbn [settings record_event].
  rewrite Hdump. eexists. split; [done|]. simpl. by rewrite <- !app_assoc.
Qed.

Lemma created_and_persisted_witness :
  ∃ w', get_spreadsheet_id env_ok fresh_world = (w', inr "new") ∧
        settings w' = with_spreadsheet "new" (configured_name fresh_world)
                        (settings fresh_world) ∧
        settings_file w' = Some (settings w') ∧
        trace w' = trace fresh_world ++ probe_events fresh_world
                   ++ [EvFilesList (configured_name fresh_world);
                       EvSpreadsheetCreate (configured_name fresh_world);
                       EvSettingsSave (settings w')].
Proof.
  apply (created_and_persisted env_ok fresh_world "new").
  - left. reflexivity.
  - reflexivity.
  - reflexivity.
  - reflexivity.
Defined.

Lemma resolved_after_miss (env : services) (w w' : world) (id : string) :
  probe_misses env w → get_spreadsheet_id env w = (w', inr id) →
  settings_file w'
  = Some (with_spreadsheet id (configured_name w) (settings w)).
Proof.
  intros Hmiss. rewrite (probe_misses_run env w Hmiss), search_or_create_run.
  cbv zeta.
  destruct (files_list env (configured_name w)) as [e|[|f fs]]; [done| |].
  - destruct (spreadsheets_create env (configured_name w)) as [e|c]; [done|].
    rewrite persist_run. cbn [settings record_event].
    destruct (json_dump env _) as [e|[]]; [done|]. by intros [= <- <-].
  - rewrite persist_run. cbn [settings record_event].
    destruct (json_dump env _) as [e|[]]; [done|]. by intros [= <- <-].
Qed.

(** The next run: once steps 2 or 3 have given an id, a run that starts
    from the settings file they wrote finds the id there, and when the
    probe of it answers it returns it after that one call, without a search
    and without a second creation. *)
Theorem next_run_reuses_persisted_id (env : services) (w w' w0 : world)
    (id : string) :
  probe_misses env w → get_spreadsheet_id env w = (w', inr id) →
  id ≠ "" → spreadsheets_get env id = inr () →
  settings_file w0 = settings_file w' →
  ∃ w1, (load_settings;; get_spreadsheet_id env) w0 = (w1, inr id) ∧
        trace w1 = trace w0 ++ [EvSpreadsheetGet id] ∧
        settings_file w1 = settings_file w0.
Proof.
  intros Hmiss Hres Hid Hprobe Hfile.
  rewrite (resolved_after_miss env w w' id Hmiss Hres) in Hfile.
  rewrite bind_run. unfold load_settings. rewrite bind_run. simpl.
  rewrite Hfile. simpl. rewrite get_spreadsheet_id_run.
  unfold configured_id. simpl. rewrite decide_True by done. rewrite Hprobe.
  by eexists.
Qed.

Lemma next_run_reuses_persisted_id_witness :
  let w' := (get_spreadsheet_id env_ok fresh_world).1 in
  ∃ w1, (load_settings;; get_spreadsheet_id env_ok) w' = (w1, inr "new") ∧
        trace w1 = trace w' ++ [EvSpreadsheetGet "new"] ∧
        settings_file w1 = settings_file w'.
Proof.
  apply (next_run_reuses_persisted_id env_ok fresh_world
           (get_spreadsheet_id env_ok fresh_world).1
           (get_spreadsheet_id env_ok fresh_world).1 "new").
  - left. reflexivity.
  - reflexivity.
  - discriminate.
  - reflexivity.
  - reflexivity.
Defined.



(** ** Sharing *)

Lemma share_spreadsheet_run (env : services) (spreadsheet_id email : string)
    (w : world) :
  share_spreadsheet env spreadsheet_id email w
  = (record_event (EvPermissionCreate spreadsheet_id email) w, inr ()).
Proof.
  unfold share_spreadsheet, try_except. rewrite call_run.
  by destruct (permissions_create env spreadsheet_id email) as [e|[]].
Qed.

(** Sharing with the users of the settings: one permission call for each
    address, in the order of the list, whether the calls before it failed
    or not; the loop never fails and changes nothing else. *)
Theorem every_user_is_tried (env : services) (spreadsheet_id : string)
    (users : list string) (w : world) :
  for_each (share_spreadsheet env spreadsheet_id) users w
  = (mkWorld (settings_file w) (settings w) (all_games w) (sheets w) (faults w)
       (trace w ++ map (EvPermissionCreate spreadsheet_id) users),
     inr ()).
Proof.
  revert w. induction users as [|u users IH]; intros w.
  - simpl. rewrite app_nil_r. by destruct w.
  - simpl. rewrite bind_run, share_spreadsheet_run, IH. simpl.
    by rewrite <- app_assoc.
Qed.

(** ** [main] before the loop *)

(** Settings that cannot be read, settings without teams, or services that
    cannot be built: [main] ends without a single remote call, and leaves
    the sub-views and the settings file alone. *)
Theorem main_stops_before_any_call (env : services) (w : world) :
  settings_file w = None
  ∨ (∃ d, settings_file w = Some d ∧ teams d = [])
  ∨ (∃ e, credentials env = inl e) →
  trace (main env w) = trace w ∧
  sheets (main env w) = sheets w ∧
  settings_file (main env w) = settings_file w.
Proof.
  intros H. unfold main, main_body. rewrite bind_run.
  unfold load_settings. rewrite bind_run. simpl.
  destruct (settings_file w) as [d|] eqn:Hfile; [|done].
  simpl. rewrite bind_run. simpl.
  destruct (teams d) as [|t ts] eqn:Ht; [done|].
  destruct H as [?|[(d' & [= <-] & Hd)|[e He]]]; [done|congruence|].
  rewrite bind_run. unfold lift at 1. by rewrite He.
Qed.

Lemma main_stops_before_any_call_witness :
  trace (main env_ok empty_world) = trace empty_world ∧
  sheets (main env_ok empty_world) = sheets empty_world ∧
  settings_file (main env_ok empty_world) = settings_file empty_world.
Proof.
  apply (main_stops_before_any_call env_ok empty_world).
  left. reflexivity.
Defined.

(** A resolver that fails ends [main] where the resolver stopped: no
    sharing, no download, no Sheets call follows. *)
Theorem main_stops_when_resolver_fails (env : services) (w w_r : world)
    (d : settings_data) (e : exn) :
  settings_file w = Some d → teams d ≠ [] → credentials env = inr () →
  get_spreadsheet_id env (set_settings d w) = (w_r, inl e) →
  main env w = w_r.
Proof.
  intros Hfile Hteams Hcred Hres. unfold main, main_body.
  rewrite bind_run. unfold load_settings. rewrite bind_run. simpl.
  rewrite Hfile. simpl. rewrite bind_run. simpl.
  destruct (teams d) as [|t ts]; [done|].
  rewrite bind_run. unfold lift at 1. rewrite Hcred.
  by rewrite bind_run, Hres.
Qed.

Lemma main_stops_when_resolver_fails_witness :
  main env_timeout
    (set_settings_file (Some (settings cached_world)) cached_world)
  = record_event (EvSpreadsheetGet "abc")
      (set_settings_file (Some (settings cached_world)) cached_world).
Proof.
  apply (main_stops_when_resolver_fails env_timeout _ _ (settings cached_world)
           (PyError "TimeoutError")).
  - reflexivity.
  - discriminate.
  - reflexivity.
  - reflexivity.
Defined.

(** ** One turn of the loop *)

Lemma process_team_run (env : services) (spreadsheet_id : string)
    (team : string * team_data) (w : world) :
  has_source_id team →
  process_team env spreadsheet_id team w =
    let w1 := record_event (EvDownload (default "" (team_id team.2))) w in
    match fetch_frame env team with
    | inl _ => (w1, inr ())
    | inr df =>
        ((update_sheet spreadsheet_id (sheet_name_of team.1) df
            (set_all_games (all_games w ++ [df]) w1)).1, inr ())
    end.
Proof.
  intros Hid. unfold has_source_id in Hid.
  unfold process_team, try_except, fetch_frame.
  rewrite decide_False by done.
  rewrite bind_run. unfold download_team_games. rewrite call_run.
  destruct (requests_get env _) as [e|bytes]; [done|].
  rewrite bind_run. unfold lift at 1.
  destruct (read_excel env bytes) as [e|df0]; [done|].
  rewrite bind_run. unfold lift at 1.
  destruct (add_team_and_week team.1 df0) as [e|df]; [done|].
  rewrite bind_run. simpl. rewrite bind_run. simpl.
  by destruct (update_sheet _ _ _ _) as [w2 [e|[]]].
Qed.

(** A team whose export cannot be fetched, read or tagged: the download is
    the only call of its turn, no frame is accumulated, no sheet is
    touched, and the loop goes on. *)
Theorem failed_team_is_dropped (env : services) (spreadsheet_id : string)
    (team : string * team_data) (w : world) (e : exn) :
  has_source_id team → fetch_frame env team = inl e →
  process_team env spreadsheet_id team w
  = (record_event (EvDownload (default "" (team_id team.2))) w, inr ()).
Proof.
  intros Hid Hfail. rewrite process_team_run by done. cbv zeta.
  by rewrite Hfail.
Qed.

Lemma failed_team_is_dropped_witness :
  process_team env_download_fails "abc" ("Men1", mkTeam (Some "4711")) cached_world
  = (record_event (EvDownload "4711") cached_world, inr ()).
Proof.
  apply (failed_team_is_dropped env_download_fails "abc"
           ("Men1", mkTeam (Some "4711")) cached_world (PyError "HTTPError")).
  - vm_compute. discriminate.
  - reflexivity.
Defined.

(** A team whose frame is built is accumulated before its sheet is
    synced: the frame is in the accumulator after the turn whether the sync
    went through or not, the turn itself never fails, and after the
    download it makes Sheets calls on the team's sheet only. *)
Theorem frame_accumulated_whatever_the_sync (env : services)
    (spreadsheet_id : string) (team : string * team_data) (w : world)
    (df : DataFrame) :
  has_source_id team → fetch_frame env team = inr df →
  (process_team env spreadsheet_id team w).2 = inr () ∧
  all_games (process_team env spreadsheet_id team w).1 = all_games w ++ [df] ∧
  sheet_events (sheet_name_of team.1)
    (set_all_games (all_games w ++ [df])
       (record_event (EvDownload (default "" (team_id team.2))) w))
    (process_team env spreadsheet_id team w).1.
Proof.
  intros Hid Hdf. rewrite process_team_run by done. cbv zeta. rewrite Hdf.
  simpl. split; [done|].
  match goal with |- context [update_sheet ?a ?b ?c ?w0] =>
    pose proof (always_update_sheet a b c w0) as Hev end.
  split; [|exact Hev]. by destruct Hev as [_ ->].
Qed.

Lemma frame_accumulated_whatever_the_sync_witness :
  let team := ("Men1", mkTeam (Some "4711")) in
  let w := set_faults [Some (HttpError 500)] cached_world in
  let df := set_column "Week" [Num 10; Num 10]
              (set_scalar "Team" (Str "Men1") sample_frame) in
  (process_team env_ok "abc" team w).2 = inr () ∧
  all_games (process_team env_ok "abc" team w).1 = all_games w ++ [df] ∧
  sheet_events (sheet_name_of team.1)
    (set_all_games (all_games w ++ [df])
       (record_event (EvDownload (default "" (team_id team.2))) w))
    (process_team env_ok "abc" team w).1.
Proof.
  apply (frame_accumulated_whatever_the_sync env_ok "abc"
           ("Men1", mkTeam (Some "4711"))
           (set_faults [Some (HttpError 500)] cached_world)).
  - vm_compute. discriminate.
  - vm_compute. reflexivity.
Defined.

(** ** Tagging a frame *)

Lemma get_set_column_eq (label : string) (data : list cell) (df : DataFrame) :
  get_column label (set_column label data df) = Some data.
Proof.
  unfold get_column, set_column. simpl.
  induction (series df) as [|[l d] cols IH]; simpl.
  - by rewrite bool_decide_eq_true_2.
  - destruct (decide (l = label)) as [->|Hne]; simpl.
    + by rewrite bool_decide_eq_true_2.
    + by rewrite bool_decide_eq_false_2.
Qed.

Lemma get_set_column_ne (label label' : string) (data : list cell) (df : DataFrame) :
  label' ≠ label →
  get_column label' (set_column label data df) = get_column label' df.
Proof.
  intros Hne. unfold get_column, set_column. simpl.
  induction (series df) as [|[l d] cols IH]; simpl.
  - by rewrite bool_decide_eq_false_2.
  - destruct (decide (l = label)) as [->|Hl]; simpl.
    + by rewrite bool_decide_eq_false_2.
    + destruct (bool_decide (l = label')); [done|]. apply IH.
Qed.

Lemma get_column_None (label : string) (df : DataFrame) :
  get_column label df = None ↔ label ∉ columns df.
Proof.
  unfold get_column, columns.
  induction (series df) as [|[l d] cols IH]; simpl.
  - split; [intros _; apply not_elem_of_nil|done].
  - rewrite not_elem_of_cons. destruct (decide (l = label)) as [->|Hne].
    + rewrite bool_decide_eq_true_2 by done. simpl. split; [done|tauto].
    + rewrite bool_decide_eq_false_2 by done. rewrite IH.
      split; [intros ?; split; congruence|tauto].
Qed.

(** The tag of a team: every row carries the team's name under [Team],
    in place of whatever a column of that label held; when the frame has a
    [Datum] column every row carries under [Week] the ISO week of its
    [Datum], missing where the date is missing, and without one no [Week]
    is added; the index and every other column are as they were. *)
Theorem team_and_week_columns (team_name : string) (df df' : DataFrame) :
  add_team_and_week team_name df = inr df' →
  index_len df' = index_len df ∧
  get_column "Team" df' = Some (replicate (index_len df) (Str team_name)) ∧
  (∀ label, label ≠ "Team" → label ≠ "Week" →
     get_column label df' = get_column label df) ∧
  match get_column "Datum" df with
  | Some datum => get_column "Week" df' = Some (map week_of datum)
  | None => get_column "Week" df' = get_column "Week" df
  end.
Proof.
  unfold add_team_and_week. set (df1 := set_scalar "Team" (Str team_name) df).
  assert (Hdatum : get_column "Datum" df1 = get_column "Datum" df).
  { by apply get_set_column_ne. }
  destruct (decide ("Datum" ∈ columns df1)) as [Hin|Hout].
  - destruct (get_column "Datum" df) as [datum|] eqn:Hd.
    2:{ exfalso. by apply get_column_None in Hdatum. }
    unfold column_or_nan. rewrite Hdatum. simpl.
    unfold isocalendar_week. destruct (decide _); [|done]. intros [= <-].
    split; [done|]. split; [|split].
    + rewrite get_set_column_ne by done. apply get_set_column_eq.
    + intros label H1 H2. rewrite get_set_column_ne by done.
      by apply get_set_column_ne.
    + apply get_set_column_eq.
  - intros [= <-]. split; [done|]. split; [apply get_set_column_eq|].
    split; [intros label H1 _; by apply get_set_column_ne|].
    apply get_column_None in Hout. rewrite Hdatum in Hout. rewrite Hout.
    by apply get_set_column_ne.
Qed.

Lemma team_and_week_columns_witness :
  let df' := set_column "Week" [Num 10; Num 10]
               (set_scalar "Team" (Str "Men1") sample_frame) in
  index_len df' = index_len sample_frame ∧
  get_column "Team" df' = Some (replicate (index_len sample_frame) (Str "Men1")) ∧
  (∀ label, label ≠ "Team" → label ≠ "Week" →
     get_column label df' = get_column label sample_frame) ∧
  match get_column "Datum" sample_frame with
  | Some datum => get_column "Week" df' = Some (map week_of datum)
  | None => get_column "Week" df' = get_column "Week" sample_frame
  end.
Proof.
  apply (team_and_week_columns "Men1" sample_frame).
  vm_compute. reflexivity.
Defined.

(** A [Datum] column that is not of timestamps (a text among its cells,
    or no timestamp at all, as in an export without rows) makes the tagging
    fail with [AttributeError]. *)
Theorem week_needs_timestamps (team_name : string) (df : DataFrame)
    (datum : list cell) :
  get_column "Datum" df = Some datum → dtype_of datum ≠ datetime64 →
  add_team_and_week team_name df = inl (PyError "AttributeError").
Proof.
  intros Hd Hdt. unfold add_team_and_week.
  set (df1 := set_scalar "Team" (Str team_name) df).
  assert (Hdatum : get_column "Datum" df1 = Some datum).
  { unfold df1, set_scalar. by rewrite get_set_column_ne. }
  destruct (decide ("Datum" ∈ columns df1)) as [Hin|Hout].
  - unfold column_or_nan. rewrite Hdatum. simpl.
    unfold isocalendar_week. by rewrite decide_False.
  - apply get_column_None in Hout. congruence.
Qed.

Lemma week_needs_timestamps_witness :
  add_team_and_week "Men1" (mkFrame 0 [("Datum", []); ("Heim", [])])
  = inl (PyError "AttributeError").
Proof.
  apply (week_needs_timestamps "Men1" (mkFrame 0 [("Datum", []); ("Heim", [])]) []).
  - reflexivity.
  - vm_compute. discriminate.
Defined.

(** ** The name of a team's sheet *)





(** ** [update_sheet]: what it leaves alone *)

Lemma only_sheet_preorder (sheet : string) : PreOrder (only_sheet sheet).
Proof.
  split.
  - by intros w.
  - intros w1 w2 w3 (A1 & B1 & C1 & D1) (A2 & B2 & C2 & D2).
    split; [|split; [|split]]; try congruence.
    intros other Hne. by rewrite A2, A1.
Qed.

Lemma only_sheet_step (sheet : string) (ev : event) (w : world) :
  only_sheet sheet w (step ev w).
Proof. done. Qed.

Lemma only_sheet_set (sheet : string) (g : grid) (w w' : world) :
  only_sheet sheet w w' →
  only_sheet sheet w (set_sheets (<[sheet := g]> (sheets w')) w').
Proof.
  intros (A & B & C & D). split; [|done]. intros other Hne. simpl.
  rewrite lookup_insert_ne by done. by apply A.
Qed.

Lemma always_only_sheet_get (sheet : string) :
  always (only_sheet sheet) (sheet_get sheet).
Proof. intros w. rewrite sheet_get_run. apply only_sheet_step. Qed.

Lemma always_only_add_sheet (sheet : string) :
  always (only_sheet sheet) (add_sheet sheet).
Proof.
  intros w. rewrite add_sheet_run.
  destruct (next_fault w); [apply only_sheet_step|].
  destruct (decide _); [apply only_sheet_step|].
  apply (only_sheet_set sheet ∅ w (step _ w)), only_sheet_step.
Qed.

Lemma always_only_values_get (sheet : string) :
  always (only_sheet sheet) (values_get_A1_Z1 sheet).
Proof. intros w. rewrite values_get_run. apply only_sheet_step. Qed.

Lemma always_only_values_clear (sheet : string) :
  always (only_sheet sheet) (values_clear_A1_Z50000 sheet).
Proof.
  intros w. rewrite values_clear_run.
  destruct (next_fault w); [apply only_sheet_step|].
  destruct (sheets w !! sheet); [|apply only_sheet_step].
  apply (only_sheet_set sheet _ w (step _ w)), only_sheet_step.
Qed.

Lemma always_only_values_update (sheet : string) (values : list (list cell)) :
  always (only_sheet sheet) (values_update_A1 sheet values).
Proof.
  intros w. rewrite values_update_run.
  destruct (to_json_rows values); [done|].
  destruct (next_fault w); [apply only_sheet_step|].
  destruct (sheets w !! sheet); [|apply only_sheet_step].
  apply (only_sheet_set sheet _ w (step _ w)), only_sheet_step.
Qed.

(** Whatever the outcome of a run of [update_sheet], every other sub-view
    is as it was, and so are the settings, the settings file and the
    accumulator of [main]. *)
Theorem update_sheet_touches_one_sheet (spreadsheet_id sheet_name : string)
    (df : DataFrame) (w : world) :
  only_sheet sheet_name w (update_sheet spreadsheet_id sheet_name df w).1.
Proof.
  revert w. change (always (only_sheet sheet_name)
                      (update_sheet spreadsheet_id sheet_name df)).
  unfold update_sheet, ensure_sheet.
  apply always_bind; [apply only_sheet_preorder| |].
  { apply always_try; [apply only_sheet_preorder|apply always_only_sheet_get|].
    intros [status|name]; [|apply always_throw, only_sheet_preorder].
    destruct (decide _);
      [apply always_only_add_sheet|apply always_throw, only_sheet_preorder]. }
  intros _. apply always_bind;
    [apply only_sheet_preorder|apply always_only_values_get|].
  intros header. apply always_bind;
    [apply only_sheet_preorder|apply always_lift, only_sheet_preorder|].
  intros df'. apply always_bind;
    [apply only_sheet_preorder|apply always_only_values_clear|].
  intros _. apply always_only_values_update.
Qed.

(** ** [update_sheet]: the existence check *)

(** A check that fails with anything but status 400 or 404 ends the run
    with that error after the one call: no sheet is added, nothing is
    cleared or written. *)
Theorem probe_error_is_raised (spreadsheet_id sheet_name : string)
    (df : DataFrame) (w : world) (e : exn) :
  next_fault w = Some e → e ≠ HttpError 400 → e ≠ HttpError 404 →
  update_sheet spreadsheet_id sheet_name df w
  = (step (EvSheetGet sheet_name) w, inl e).
Proof.
  intros Hf H400 H404. unfold update_sheet. rewrite bind_run.
  unfold ensure_sheet, try_except. rewrite sheet_get_run, Hf.
  destruct e as [status|name]; [|done].
  destruct (decide (status = 400 ∨ status = 404)) as [[->| ->]|]; done.
Qed.

Lemma probe_error_is_raised_witness :
  update_sheet "abc" "Men1" sample_frame forbidden_world
  = (step (EvSheetGet "Men1") forbidden_world, inl (HttpError 403)).
Proof.
  apply (probe_error_is_raised "abc" "Men1" sample_frame forbidden_world).
  - reflexivity.
  - discriminate.
  - discriminate.
Defined.

(** ** [update_sheet]: the calls of a run *)

Lemma ensure_sheet_calls (sheet_name : string) (w w' : world) :
  ensure_sheet sheet_name w = (w', inr ()) →
  sheets w' = <[sheet_name := default ∅ (sheets w !! sheet_name)]> (sheets w) ∧
  trace w' = trace w ++ EvSheetGet sheet_name ::
               (if bool_decide (is_Some (sheets w !! sheet_name)) then []
                else [EvAddSheet sheet_name]).
Proof.
  intros H. split; [by apply ensure_sheet_ok in H as (? & _)|].
  revert H. unfold ensure_sheet, try_except, throw. rewrite sheet_get_run.
  destruct (next_fault w) as [e|] eqn:Hf.
  - destruct e as [status|name]; [|done].
    destruct (decide _); [|done]. rewrite add_sheet_run. simpl.
    destruct (next_fault (step _ w)); simpl; [done|].
    destruct (decide _) as [|Hn]; [done|]. intros [= <-]. simpl.
    rewrite bool_decide_eq_false_2 by done. by rewrite <- app_assoc.
  - destruct (decide (is_Some (sheets w !! sheet_name))) as [Hs|Hn].
    + intros [= <-]. simpl. by rewrite bool_decide_eq_true_2.
    + rewrite decide_True by lia. rewrite add_sheet_run. simpl.
      destruct (next_fault (step _ w)); simpl; [done|].
      rewrite decide_False by done. intros [= <-]. simpl.
      rewrite bool_decide_eq_false_2 by done. by rewrite <- app_assoc.
Qed.

(** A run that goes through makes four calls on its sheet, in this order:
    the check, the read of the header, the clear, the write; a fifth, the
    addition of the sheet, comes second when the sheet was not there.  The
    write carries the frame normalised and reconciled with the header the
    sheet had. *)
Theorem update_sheet_calls (spreadsheet_id sheet_name : string)
    (df : DataFrame) (w w' : world) :
  update_sheet spreadsheet_id sheet_name df w = (w', inr ()) →
  ∃ body,
    synced df (default ∅ (sheets w !! sheet_name)) = Some body ∧
    trace w' = trace w
               ++ sync_calls sheet_name
                    (bool_decide (is_Some (sheets w !! sheet_name))) body.
Proof.
  intros H. pose proof H as Hok.
  apply update_sheet_ok in Hok as (body & Hb & Hs & _).
  exists body. split; [done|]. unfold update_sheet in H.
  apply bind_ok in H as (w1 & [] & H1 & H).
  apply ensure_sheet_calls in H1 as (Hs1 & Ht1).
  set (g := default ∅ (sheets w !! sheet_name)) in *.
  apply bind_ok in H as (w2 & header & H2 & H).
  rewrite values_get_run in H2. destruct (next_fault w1); [done|].
  rewrite Hs1, lookup_insert_eq in H2. injection H2 as <- <-.
  apply bind_ok in H as (w3 & df' & H3 & H).
  unfold lift in H3.
  destruct (reorder _ _) as [df2|] eqn:Hre; [|done].
  simpl in H3. injection H3 as <- <-.
  apply bind_ok in H as (w4 & [] & H4 & H).
  rewrite values_clear_run in H4. destruct (next_fault _); [done|].
  simpl in H4. rewrite Hs1, lookup_insert_eq in H4. injection H4 as <-.
  rewrite values_update_run in H.
  destruct (to_json_rows (values_of df2)) as [e|body2] eqn:Hj; [done|].
  destruct (next_fault _); [done|].
  simpl in H. rewrite lookup_insert_eq in H. injection H as <-.
  assert (body2 = body) as ->.
  { unfold synced in Hb. rewrite Hre in Hb.
    change (match to_json_rows (values_of df2) with
            | inr b => Some b
            | inl _ => None
            end = Some body) in Hb.
    rewrite Hj in Hb. by injection Hb. }
  simpl. rewrite Ht1. unfold sync_calls.
  rewrite <- !app_assoc. by destruct (bool_decide _).
Qed.

Lemma update_sheet_calls_witness :
  let r := update_sheet "abc" "Men1" narrow_frame empty_world in
  ∃ body,
    synced narrow_frame (default ∅ (sheets empty_world !! "Men1")) = Some body ∧
    trace r.1 = trace empty_world
                ++ sync_calls "Men1"
                     (bool_decide (is_Some (sheets empty_world !! "Men1"))) body.
Proof.
  apply (update_sheet_calls "abc" "Men1" narrow_frame empty_world
           (update_sheet "abc" "Men1" narrow_frame empty_world).1).
  vm_compute. reflexivity.
Defined.

(** ** [update_sheet]: the header that is written *)

Lemma synced_header (df : DataFrame) (g : grid) (body : list (list prim)) :
  NoDup (columns df) → synced df g = Some body →
  body !! 0
  = Some (map PStr (reconcile (existing_columns (read_A1_Z1 g)) (columns df))).
Proof.
  intros Hnd. unfold synced.
  destruct (reorder (existing_columns (read_A1_Z1 g)) (normalize df))
    as [df'|] eqn:Hre; [|done].
  cbn [mbind option_bind].
  destruct (to_json_rows (values_of df')) as [e|b] eqn:Hj; [done|].
  intros [= ->].
  assert (NoDup (columns (normalize df))) as Hnd' by (by rewrite columns_normalize).
  destruct (reorder_columns (existing_columns (read_A1_Z1 g)) _ Hnd')
    as (df2 & Hre2 & Hcols & _).
  rewrite Hre in Hre2. injection Hre2 as <-.
  rewrite (to_json_rows_header df' body Hj), Hcols.
  by rewrite columns_normalize.
Qed.

Lemma read_empty_header : existing_columns (read_A1_Z1 ∅) = [].
Proof. reflexivity. Qed.

(** A sub-view without a header, a new one among them: the run writes the
    frame's columns in the frame's own order, and after it the sub-view
    holds the written body over what the clear left. *)
Theorem first_sync_keeps_frame_order (spreadsheet_id sheet_name : string)
    (df : DataFrame) (w w' : world) :
  existing_columns (read_A1_Z1 (default ∅ (sheets w !! sheet_name))) = [] →
  update_sheet spreadsheet_id sheet_name df w = (w', inr ()) →
  ∃ body,
    to_json_rows (values_of (normalize df)) = inr body ∧
    body !! 0 = Some (map PStr (columns df)) ∧
    sheets w' !! sheet_name
    = Some (write_rows 0 body
              (clear_A1_Z50000 (default ∅ (sheets w !! sheet_name)))).
Proof.
  intros Hempty H. apply update_sheet_ok in H as (body & Hb & Hs & _).
  exists body. unfold synced in Hb. rewrite Hempty in Hb.
  cbn [reorder mbind option_bind] in Hb.
  destruct (to_json_rows (values_of (normalize df))) as [e|b] eqn:Hj; [done|].
  injection Hb as ->. split; [done|]. split.
  - by rewrite (to_json_rows_header _ _ Hj), columns_normalize.
  - by rewrite Hs, lookup_insert_eq.
Qed.

Lemma first_sync_keeps_frame_order_witness :
  let w' := (update_sheet "abc" "Men1" sample_frame empty_world).1 in
  ∃ body,
    to_json_rows (values_of (normalize sample_frame)) = inr body ∧
    body !! 0 = Some (map PStr (columns sample_frame)) ∧
    sheets w' !! "Men1"
    = Some (write_rows 0 body
              (clear_A1_Z50000 (default ∅ (sheets empty_world !! "Men1")))).
Proof.
  apply (first_sync_keeps_frame_order "abc" "Men1" sample_frame empty_world).
  - reflexivity.
  - vm_compute. reflexivity.
Defined.

(** ** [update_sheet]: a write that fails *)



(** ** [update_sheet]: the sync after a sync *)

(** The sync after a sync.  After the first run the header row of the
    sub-view reads as the first twenty-six names of the reconciled header;
    the second run reconciles its frame with what it reads there, and
    leaves the outcome in the header row.  When the first header had no
    more than twenty-six names and the second frame still has all of them,
    the header after the second run is the first one followed by the
    columns that are new, in the frame's order, up to column [Z]. *)
Theorem second_sync_header (spreadsheet_id sheet_name : string)
    (df1 df2 : DataFrame) (w w1 w2 : world) :
  NoDup (columns df1) → "" ∉ columns df1 →
  NoDup (columns df2) → "" ∉ columns df2 →
  update_sheet spreadsheet_id sheet_name df1 w = (w1, inr ()) →
  update_sheet spreadsheet_id sheet_name df2 w1 = (w2, inr ()) →
  let header_of (v : world) :=
    existing_columns (read_A1_Z1 (default ∅ (sheets v !! sheet_name))) in
  let header1 := reconcile (header_of w) (columns df1) in
  header_of w1 = take column_ceiling header1 ∧
  header_of w2
  = take column_ceiling (reconcile (header_of w1) (columns df2)) ∧
  (length header1 ≤ column_ceiling →
   (∀ l, l ∈ columns df1 → l ∈ columns df2) →
   header_of w2
   = take column_ceiling
       (header1 ++ filter (λ l, l ∉ header1) (columns df2))).
Proof.
  intros Hnd1 Hne1 Hnd2 Hne2 H1 H2 header_of header1.
  assert (Hstep : ∀ df v v', NoDup (columns df) → "" ∉ columns df →
            update_sheet spreadsheet_id sheet_name df v = (v', inr ()) →
            header_of v'
            = take column_ceiling (reconcile (header_of v) (columns df))).
  { intros df v v' Hnd Hne H.
    apply update_sheet_ok in H as (body & Hb & Hs & _).
    unfold header_of at 1. rewrite Hs, lookup_insert_eq. simpl.
    apply read_back_header.
    - by apply synced_header.
    - intros Hin. by apply reconcile_elem in Hin. }
  pose proof (Hstep df1 w w1 Hnd1 Hne1 H1) as Hh1. fold header1 in Hh1.
  pose proof (Hstep df2 w1 w2 Hnd2 Hne2 H2) as Hh2.
  split; [done|]. split; [done|].
  intros Hlen Hsub. rewrite Hh2, Hh1. f_equal.
  rewrite take_ge by done. rewrite reconcile_unfold.
  assert (Hc : common_columns header1 (columns df2) = header1).
  { apply filter_all. intros x Hx. apply Hsub.
    unfold header1 in Hx. by apply reconcile_elem in Hx. }
  clearbody header1. destruct header1 as [|h hs].
  { simpl. symmetry. apply filter_all. intros x _. apply not_elem_of_nil. }
  unfold new_columns. by rewrite Hc.
Qed.

Lemma second_sync_header_witness :
  let w1 := (update_sheet "abc" "Men1" narrow_frame empty_world).1 in
  let w2 := (update_sheet "abc" "Men1" two_column_frame w1).1 in
  let header_of (v : world) :=
    existing_columns (read_A1_Z1 (default ∅ (sheets v !! "Men1"))) in
  let header1 := reconcile (header_of empty_world) (columns narrow_frame) in
  header_of w1 = take column_ceiling header1 ∧
  header_of w2
  = take column_ceiling (reconcile (header_of w1) (columns two_column_frame)) ∧
  (length header1 ≤ column_ceiling →
   (∀ l, l ∈ columns narrow_frame → l ∈ columns two_column_frame) →
   header_of w2
   = take column_ceiling
       (header1 ++ filter (λ l, l ∉ header1) (columns two_column_frame))).
Proof.
  apply (second_sync_header "abc" "Men1" narrow_frame two_column_frame
           empty_world).
  - compute_done.
  - compute_done.
  - compute_done.
  - compute_done.
  - vm_compute. reflexivity.
  - vm_compute. reflexivity.
Defined.

(** ** The reconciler: no column lost, none doubled *)

(** With a header that names no column twice, reconciliation only moves
    the columns of the frame: each is in the result once. *)
Theorem reconcile_is_permutation (existing incoming : list string) :
  NoDup existing → NoDup incoming →
  reconcile existing incoming ≡ₚ incoming ∧
  NoDup (reconcile existing incoming).
Proof.
  intros HE HI.
  assert (NoDup (reconcile existing incoming)) as Hnd.
  { rewrite reconcile_unfold. destruct existing as [|e E]; [done|].
    apply NoDup_app. split; [|split].
    - by apply NoDup_filter.
    - unfold new_columns. intros x Hx Hx'.
      apply list_elem_of_filter in Hx' as [Hx' _]. done.
    - by apply NoDup_filter. }
  split; [|done].
  apply NoDup_Permutation; [done|done|]. intros x. apply reconcile_elem.
Qed.

Lemma reconcile_is_permutation_witness :
  reconcile ["Zeit"; "Ort"; "Datum"] (columns sample_frame)
  ≡ₚ columns sample_frame ∧
  NoDup (reconcile ["Zeit"; "Ort"; "Datum"] (columns sample_frame)).
Proof.
  apply (reconcile_is_permutation ["Zeit"; "Ort"; "Datum"]
           (columns sample_frame)); compute_done.
Defined.

(** A header that repeats a name the frame has repeats the column: the
    label stands in the result as often as in the header, and the frame
    that is written has as many columns of that label. *)
Theorem repeated_header_repeats_column (existing : list string)
    (df : DataFrame) (l : string) :
  NoDup (columns df) → l ∈ columns df → l ∈ existing →
  ∃ df', reorder existing df = Some df' ∧
    filter (λ c, c = l) (columns df') = filter (λ c, c = l) existing.
Proof.
  intros Hnd HI HE.
  destruct (reorder_columns existing df Hnd) as (df' & Hre & Hcols & _).
  exists df'. split; [done|]. rewrite Hcols, reconcile_unfold.
  destruct existing as [|e E]; [by apply elem_of_nil in HE|].
  set (X := e :: E) in *. rewrite filter_app.
  assert (l ∈ common_columns X (columns df)) as Hc.
  { unfold common_columns. by apply list_elem_of_filter. }
  rewrite (filter_none _ (new_columns X (columns df))).
  2:{ intros x Hx ->. unfold new_columns in Hx.
      apply list_elem_of_filter in Hx as [Hx _]. done. }
  rewrite app_nil_r. unfold common_columns.
  clearbody X. clear Hc HE Hre Hcols.
  induction X as [|x X IH]; [done|].
  destruct (decide (x = l)) as [->|Hne].
  - rewrite (filter_cons_True (λ col, col ∈ columns df)) by done.
    rewrite !(filter_cons_True (λ c, c = l)) by done. by f_equal.
  - rewrite (filter_cons_False (λ c, c = l) x X) by done.
    destruct (decide (x ∈ columns df)).
    + rewrite (filter_cons_True (λ col, col ∈ columns df)) by done.
      by rewrite (filter_cons_False (λ c, c = l)) by done.
    + by rewrite (filter_cons_False (λ col, col ∈ columns df)) by done.
Qed.

Lemma repeated_header_repeats_column_witness :
  ∃ df', reorder repeated_header sample_frame = Some df' ∧
    filter (λ c, c = "Resultat") (columns df')
    = filter (λ c, c = "Resultat") repeated_header.
Proof.
  apply (repeated_header_repeats_column repeated_header sample_frame
           "Resultat"); compute_done.
Defined.

(** ** Reordering moves columns and nothing else *)

Lemma find_filter_same {A} (p : A → bool) (l : list A) :
  find p (filter (λ x, p x = true) l) = find p l.
Proof.
  induction l as [|a l IH]; [done|].
  destruct (p a) eqn:Hp.
  - rewrite filter_cons_True by done. simpl. by rewrite Hp.
  - rewrite filter_cons_False by (by rewrite Hp). simpl. by rewrite Hp.
Qed.

Lemma find_none_elem {A} (p : A → bool) (l : list A) :
  (∀ x, x ∈ l → p x = false) → find p l = None.
Proof.
  induction l as [|a l IH]; intros H; [done|]. simpl.
  rewrite (H a) by left. apply IH. intros x Hx. apply H. by right.
Qed.

Lemma find_app {A} (p : A → bool) (l1 l2 : list A) :
  find p (l1 ++ l2) = match find p l1 with Some x => Some x | None => find p l2 end.
Proof.
  induction l1 as [|a l1 IH]; [done|]. simpl. by destruct (p a).
Qed.

Lemma find_selected (cols : list (string * list cell)) (labels : list string)
    (l : string) :
  (l ∈ map fst cols → l ∈ labels) →
  find (λ s, bool_decide (s.1 = l))
    (labels ≫= λ l', filter (λ s, s.1 = l') cols)
  = find (λ s, bool_decide (s.1 = l)) cols.
Proof.
  intros Hin.
  destruct (decide (l ∈ labels)) as [Hl|Hl].
  - clear Hin. induction labels as [|l' labels IH]; [by apply elem_of_nil in Hl|].
    change (find (λ s : string * list cell, bool_decide (s.1 = l))
              (filter (λ s : string * list cell, s.1 = l') cols
               ++ (labels ≫= λ l', filter (λ s : string * list cell, s.1 = l') cols))
            = find (λ s : string * list cell, bool_decide (s.1 = l)) cols).
    rewrite find_app. destruct (decide (l' = l)) as [->|Hne].
    + assert (find (λ s : string * list cell, bool_decide (s.1 = l))
                (filter (λ s : string * list cell, s.1 = l) cols)
              = find (λ s : string * list cell, bool_decide (s.1 = l)) cols) as ->.
      { rewrite <- (find_filter_same (λ s : string * list cell, bool_decide (s.1 = l)) cols).
        f_equal. apply filter_ext_elem. intros x _.
        symmetry. apply bool_decide_eq_true. }
      destruct (find _ cols) as [s|] eqn:Hf; [done|].
      apply find_none_elem. intros x Hx.
      apply list_elem_of_bind in Hx as (l' & Hx & _).
      apply list_elem_of_filter in Hx as [_ Hx].
      apply (find_none _ _ Hf). by apply list_elem_of_In.
    + rewrite find_none_elem.
      * apply IH. apply elem_of_cons in Hl as [?|?]; [congruence|done].
      * intros x Hx. apply list_elem_of_filter in Hx as [Hx _].
        apply bool_decide_eq_false. congruence.
  - rewrite !find_none_elem; [done| |].
    + intros [l2 d2] Hx. apply bool_decide_eq_false. simpl. intros ->.
      apply Hl, Hin. apply list_elem_of_fmap. by exists (l, d2).
    + intros x Hx. apply list_elem_of_bind in Hx as (l' & Hx & Hl').
      apply list_elem_of_filter in Hx as [Hx _].
      apply bool_decide_eq_false. congruence.
Qed.

Lemma select_series (labels : list string) (df df' : DataFrame) :
  select labels df = Some df' →
  index_len df' = index_len df ∧
  series df' = labels ≫= λ l, filter (λ s, s.1 = l) (series df).
Proof.
  unfold select. destruct (decide _); [|done]. by intros [= <-].
Qed.

Lemma reorder_series (E : list string) (df df' : DataFrame) :
  NoDup (columns df) → reorder E df = Some df' →
  index_len df' = index_len df ∧
  series df'
  = reconcile E (columns df) ≫= λ l, filter (λ s, s.1 = l) (series df).
Proof.
  intros Hnd Hre. apply reorder_select in Hre; [|done].
  by apply select_series.
Qed.

Lemma reorder_series_elem (E : list string) (df df' : DataFrame) s :
  NoDup (columns df) → reorder E df = Some df' →
  s ∈ series df' → s ∈ series df.
Proof.
  intros Hnd Hre Hs.
  destruct (reorder_series E df df' Hnd Hre) as [_ Heq].
  rewrite Heq in Hs. apply list_elem_of_bind in Hs as (l & Hs & _).
  by apply list_elem_of_filter in Hs as [_ Hs].
Qed.

Lemma rectangular_reorder (E : list string) (df df' : DataFrame) :
  NoDup (columns df) → reorder E df = Some df' →
  rectangular df → rectangular df'.
Proof.
  intros Hnd Hre. destruct (reorder_series E df df' Hnd Hre) as [Hlen _].
  unfold rectangular. rewrite Hlen, !Forall_forall.
  intros Hr s Hs. apply Hr. by eapply reorder_series_elem.
Qed.

(** On a frame with distinct labels the reordering never fails, and it
    moves whole columns: the index is the same, a label leads to the same
    cells as before, and a frame with one cell per row and column stays
    one. *)
Theorem reorder_moves_columns_only (existing : list string) (df : DataFrame) :
  NoDup (columns df) →
  ∃ df', reorder existing df = Some df' ∧
    index_len df' = index_len df ∧
    (∀ l, get_column l df' = get_column l df) ∧
    (rectangular df → rectangular df').
Proof.
  intros Hnd.
  destruct (reorder_columns existing df Hnd) as (df' & Hre & _ & _).
  exists df'. split; [done|].
  destruct (reorder_series existing df df' Hnd Hre) as [Hlen Hser].
  split; [done|]. split.
  - intros l. unfold get_column. rewrite Hser. f_equal.
    apply find_selected. intros Hl. by apply reconcile_elem.
  - by apply (rectangular_reorder existing df df').
Qed.

Lemma reorder_moves_columns_only_witness :
  ∃ df', reorder ["Zeit"; "Ort"; "Datum"] sample_frame = Some df' ∧
    index_len df' = index_len sample_frame ∧
    (∀ l, get_column l df' = get_column l sample_frame) ∧
    (rectangular sample_frame → rectangular df').
Proof.
  apply (reorder_moves_columns_only ["Zeit"; "Ort"; "Datum"] sample_frame).
  compute_done.
Defined.

(** ** What normalisation leaves in the cells *)



(** ** Frames that are always written *)








(** ** A run that fetches nothing *)

(** When no team gives a frame, for want of an id or because its export
    cannot be fetched, read or tagged, the loop and the combined sync make
    the downloads and nothing else: no sub-view is read, cleared or written,
    ["All"] included. *)
Theorem nothing_fetched_nothing_written (env : services)
    (spreadsheet_id : string) (teams : list (string * team_data)) (w : world) :
  all_games w = [] →
  Forall (λ team, has_source_id team → ∃ e, fetch_frame env team = inl e) teams →
  (for_each (process_team env spreadsheet_id) teams;;
   sync_all env spreadsheet_id) w
  = (mkWorld (settings_file w) (settings w) [] (sheets w) (faults w)
       (trace w ++ map (λ team, EvDownload (default "" (team_id team.2)))
                     (filter has_source_id teams)),
     inr ()).
Proof.
  intros Hall Hteams. revert w Hall.
  induction Hteams as [|team teams Hteam _ IH]; intros w Hall.
  - simpl. rewrite bind_run. simpl. rewrite sync_all_run, Hall.
    rewrite app_nil_r. destruct w; simpl in *. by subst.
  - rewrite bind_run. cbn [for_each]. rewrite bind_run.
    destruct (decide (has_source_id team)) as [Hid|Hid].
    + destruct (Hteam Hid) as [e He].
      rewrite process_team_run by done. cbv zeta. rewrite He.
      rewrite filter_cons_True by done.
      specialize (IH (record_event (EvDownload (default "" (team_id team.2))) w) Hall).
      rewrite bind_run in IH.
      destruct (for_each _ teams _) as [w1 [e1|[]]]; [done|].
      rewrite IH. simpl. by rewrite <- app_assoc.
    + rewrite process_team_without_id by done.
      rewrite filter_cons_False by done.
      specialize (IH w Hall). rewrite bind_run in IH.
      by destruct (for_each _ teams w) as [w1 [e1|[]]].
Qed.

Lemma nothing_fetched_nothing_written_witness :
  (for_each (process_team env_download_fails "abc") three_teams;;
   sync_all env_download_fails "abc") cached_world
  = (mkWorld (settings_file cached_world) (settings cached_world) []
       (sheets cached_world) (faults cached_world)
       (trace cached_world
        ++ map (λ team, EvDownload (default "" (team_id team.2)))
             (filter has_source_id three_teams)),
     inr ()).
Proof.
  apply (nothing_fetched_nothing_written env_download_fails "abc" three_teams
           cached_world).
  - reflexivity.
  - repeat constructor.
    + intros _. by exists (PyError "HTTPError").
    + intros H. exfalso. by apply H.
    + intros _. by exists (PyError "HTTPError").
Defined.
